(** * devrel-blog-utils: frontmatter extractor, updater and tag orchestrator

    A shallow embedding of
      - [src/utils/markdown-frontmatter-extractor.ts] (MarkdownFrontmatterExtractor),
      - [src/utils/markdown-frontmatter-updater.ts]   (MarkdownFrontmatterUpdater),
      - [src/utils/generative-tags.ts]                (GenerativeTags),
      - [src/bin/cli.ts]                              (the command line),
    with the properties the specification states about them.

    Conventions.
      - A JavaScript string is a [string]: a sequence of 8-bit code units.
      - A thrown [Error] is its message; [outcome A] is a returned value or a
        thrown message, and [io A] threads the world (file system, trace of
        writes, console, count of AI calls) through a computation.
      - A plain object used as a record is a [gmap string jsval] of its own
        enumerable properties.  Property order is not modelled.
      - The third-party packages (mdast, yaml, the AI SDK) and the Node
        built-ins the code calls are interfaces ([MarkdownLib], [YamlLib],
        [Host]): the theorems about the classes hold for every
        implementation of them.
      - Where a property speaks of the bytes of a document, the markdown
        packages are modelled on a fragment of plain documents ([Mdast]).
        The fence codec of the specification ([FenceCodec]) gives the
        specification's reading of a document, and the documents of the
        examples.
      - [async] functions run to completion one after the other, so [await]
        is sequencing. *)

From stdpp Require Import gmap strings list fin_maps pretty.
From Stdlib Require Import ZArith Ascii String.


Set Warnings "-register-all".

(** ** Strings *)

Definition nl : string := String (ascii_of_nat 10) EmptyString.

(** WhiteSpace and LineTerminator code units below 256, as
    [String.prototype.trim] strips them. *)
Definition is_js_space (c : ascii) : bool :=
  let n := nat_of_ascii c in
  (Nat.eqb n 9 || Nat.eqb n 10 || Nat.eqb n 11 || Nat.eqb n 12 || Nat.eqb n 13
   || Nat.eqb n 32 || Nat.eqb n 160)%bool.

Fixpoint trimStart (s : string) : string :=
  match s with
  | String c s' => if is_js_space c then trimStart s' else s
  | EmptyString => EmptyString
  end.

Definition trimEnd (s : string) : string := String.rev (trimStart (String.rev s)).

(** [s.trim()] *)
Definition trim (s : string) : string := trimEnd (trimStart s).

(** ** JavaScript values *)

(** The values the YAML package produces ([any] in the source), and
    [JBuiltin]: a property inherited from a prototype object (a built-in
    function such as [Object.prototype.toString]).  Numbers are the integers
    and NaN; other numbers are not needed by any operation here. *)
Inductive jsval : Type :=
| JNull
| JBool (b : bool)
| JNum (n : Z)
| JNaN
| JStr (s : string)
| JArr (l : list jsval)
| JObj (o : gmap string jsval)
| JBuiltin (name : string).

(** ToBoolean. *)
Definition truthy (v : jsval) : bool :=
  match v with
  | JNull => false
  | JBool b => b
  | JNum n => negb (Z.eqb n 0)
  | JNaN => false
  | JStr s => negb (String.eqb s "")
  | JArr _ | JObj _ | JBuiltin _ => true
  end.

(** [a || b] *)
Definition js_or (a b : jsval) : jsval := if truthy a then a else b.

(** [!x] for a value that may be [null] ([None]). *)
Definition js_not (x : option jsval) : bool :=
  match x with
  | None => true
  | Some v => negb (truthy v)
  end.

Fixpoint string_chars (s : string) : list jsval :=
  match s with
  | EmptyString => []
  | String c s' => JStr (String c EmptyString) :: string_chars s'
  end.

Definition indexed (l : list jsval) : gmap string jsval :=
  list_to_map (imap (fun i v => (pretty i, v)) l).

(** The own enumerable string-keyed properties of a value, as object spread
    ([{...x}]) reads them: those of an object, the elements of an array and
    the code units of a string under their indices, nothing for [null],
    booleans and numbers. *)
Definition own_props (x : option jsval) : gmap string jsval :=
  match x with
  | Some (JObj o) => o
  | Some (JArr l) => indexed l
  | Some (JStr s) => indexed (string_chars s)
  | _ => ∅
  end.

(** CopyDataProperties(target, source): every own property of the source is
    created on, or overwrites, the target. *)
Definition CopyDataProperties (target : gmap string jsval) (source : option jsval)
  : gmap string jsval :=
  own_props source ∪ target.

(** [{ ...a, ...b }] *)
Definition spread2 (a b : option jsval) : gmap string jsval :=
  CopyDataProperties (CopyDataProperties ∅ a) b.

(** The property names of [Object.prototype], which every plain object
    inherits. *)
Definition Object_prototype_keys : list string :=
  [ "constructor"; "__defineGetter__"; "__defineSetter__"; "hasOwnProperty";
    "__lookupGetter__"; "__lookupSetter__"; "isPrototypeOf";
    "propertyIsEnumerable"; "toString"; "valueOf"; "__proto__";
    "toLocaleString" ].

(** [key in obj] for a plain object: own or inherited. *)
Definition js_in (key : string) (obj : gmap string jsval) : bool :=
  bool_decide (is_Some (obj !! key)) || bool_decide (key ∈ Object_prototype_keys).

(** [obj[key]] for a plain object when [key in obj]: the own property, or the
    inherited one. *)
Definition js_get (obj : gmap string jsval) (key : string) : jsval :=
  match obj !! key with
  | Some v => v
  | None => JBuiltin key
  end.

(** [obj[key] = v] on a plain object: an own data property is created or
    overwritten, except that ["__proto__"] runs the inherited setter, which
    creates no own property. *)
Definition js_set (obj : gmap string jsval) (key : string) (v : jsval)
  : gmap string jsval :=
  if bool_decide (key = "__proto__") then obj else <[key := v]> obj.

(** The property names an array inherits from [Array.prototype] (ES2023),
    besides its own [length]. *)
Definition Array_prototype_keys : list string :=
  [ "at"; "concat"; "copyWithin"; "entries"; "every"; "fill"; "filter"; "find";
    "findIndex"; "findLast"; "findLastIndex"; "flat"; "flatMap"; "forEach";
    "includes"; "indexOf"; "join"; "keys"; "lastIndexOf"; "map"; "pop"; "push";
    "reduce"; "reduceRight"; "reverse"; "shift"; "slice"; "some"; "sort";
    "splice"; "toReversed"; "toSorted"; "toSpliced"; "unshift"; "values";
    "with" ].

(** [String(v)] for the primitive values; a number is an integer below
    10^21 in absolute value (from there on JavaScript prints an exponent). *)
Definition to_display (v : jsval) : string :=
  match v with
  | JNull => "null"
  | JBool true => "true"
  | JBool false => "false"
  | JNum n => pretty n
  | JNaN => "NaN"
  | JStr s => s
  | _ => "[object Object]"
  end.

(** ** Outcomes and the world *)

Inductive outcome (A : Type) : Type :=
| Returned (a : A)
| Thrown (message : string).
Arguments Returned {A} a.
Arguments Thrown {A} message.

(** [try { body } catch (error) { throw new Error(prefix + error.message) }] *)
Definition rethrow {A} (prefix : string) (body : outcome A) : outcome A :=
  match body with
  | Returned a => Returned a
  | Thrown msg => Thrown (prefix +:+ msg)
  end.

(** [key in data] for any value: a plain object as [js_in]; an array also
    answers for [length] and the names of [Array.prototype]; a primitive
    makes the operator throw a TypeError.  (A function value never reaches
    this operator: the YAML reader produces none.) *)
Definition has_property (key : string) (data : jsval) : outcome bool :=
  match data with
  | JObj o => Returned (js_in key o)
  | JArr l =>
      Returned (js_in key (indexed l)
                || bool_decide (key ∈ "length" :: Array_prototype_keys))
  | JBuiltin _ => Returned (js_in key ∅)
  | _ =>
      Thrown ("Cannot use 'in' operator to search for '" +:+ key +:+ "' in "
              +:+ to_display data)
  end.

(** [data[key]] when [key in data]. *)
Definition get_property (data : jsval) (key : string) : jsval :=
  match data with
  | JObj o => js_get o key
  | JArr l =>
      if bool_decide (key = "length") then JNum (Z.of_nat (List.length l))
      else js_get (indexed l) key
  | _ => JBuiltin key
  end.

Inductive console_event : Type :=
| log_generated (filePath : string) (tags : list string)
| error_failed_to_process (filePath message : string)
| log_no_files_found
| log_found_files (n : nat)
| error_batch_failed (file message : string).

Record world : Type := mkWorld {
  files : gmap string string;          (* regular files: path to content *)
  dirs : gmap string (list string);    (* directories: path to entry names *)
  written : list (string * string);    (* trace of fs.writeFile calls *)
  console : list console_event;        (* trace of console.log / console.error *)
  ai_calls : nat                       (* number of AI requests made so far *)
}.

Definition io (A : Type) : Type := world -> outcome A * world.

Definition ret {A} (a : A) : io A := fun w => (Returned a, w).

Definition bind {A B} (m : io A) (k : A -> io B) : io B :=
  fun w =>
    match m w with
    | (Returned a, w') => k a w'
    | (Thrown msg, w') => (Thrown msg, w')
    end.

Definition throw {A} (message : string) : io A := fun w => (Thrown message, w).

Definition lift {A} (o : outcome A) : io A := fun w => (o, w).

(** [try { body } catch (error) { handler(error.message) }] *)
Definition try_catch {A} (body : io A) (handler : string -> io A) : io A :=
  fun w =>
    match body w with
    | (Returned a, w') => (Returned a, w')
    | (Thrown msg, w') => handler msg w'
    end.

Notation "x <- m ;; k" := (bind m (fun x => k))
  (at level 62, m at next level, right associativity).
Notation "m ;;; k" := (bind m (fun _ => k))
  (at level 62, right associativity).

(** [fs.readFile(path, 'utf-8')]: it throws when there is no such file.  (No
    other I/O failure is modelled, and [fs.writeFile] always succeeds.) *)
Definition readFile (path : string) : io string :=
  fun w =>
    match files w !! path with
    | Some content => (Returned content, w)
    | None =>
        (Thrown ("ENOENT: no such file or directory, open '" +:+ path +:+ "'"), w)
    end.

(** The world after [fs.writeFile(path, content)]: a full overwrite, recorded
    in the trace of writes. *)
Definition after_write (w : world) (path content : string) : world :=
  mkWorld (<[path := content]> (files w)) (dirs w)
          (written w ++ [(path, content)]) (console w) (ai_calls w).

(** [fs.writeFile(path, content, 'utf-8')], where the file can be written:
    a write that is refused (permissions, a full disk) is outside the model. *)
Definition writeFile (path content : string) : io unit :=
  fun w => (Returned tt, after_write w path content).

Definition console_emit (e : console_event) : io unit :=
  fun w =>
    (Returned tt,
     mkWorld (files w) (dirs w) (written w) (console w ++ [e]) (ai_calls w)).

(** A computation that leaves a part [f] of the world as it found it,
    whether it returns or throws: the console ([f := console]), or the whole
    world ([f := id], a read-only computation). *)
Definition keeps {A X} (f : world -> X) (m : io A) : Prop :=
  forall w, f (m w).2 = f w.

(** The files whose processing the console reports, in order: each run of
    [processSingleFile] ends with exactly one of the two reports. *)
Definition attempted_files (events : list console_event) : list string :=
  omap (fun e =>
          match e with
          | log_generated filePath _ => Some filePath
          | error_failed_to_process filePath _ => Some filePath
          | _ => None
          end) events.

(** ** The third-party packages *)

(** A top-level mdast node: the [yaml] node the frontmatter extension
    produces, with its [value], or any other block node. *)
Inductive node (block : Type) : Type :=
| yaml (value : string)
| other (b : block).
Arguments yaml {block} value.
Arguments other {block} b.

(** [node.type === 'yaml'] *)
Definition is_yaml {block} (n : node block) : bool :=
  match n with
  | yaml _ => true
  | other _ => false
  end.

(** mdast-util-from-markdown and mdast-util-to-markdown with the frontmatter
    extension: [fromMarkdown content] is [ast.children]. *)
Class MarkdownLib : Type := {
  block : Type;
  fromMarkdown : string -> list (node block);
  toMarkdown : list (node block) -> string
}.

(** The yaml package: [parse] may throw, [stringify] is called with the
    options [{ lineWidth: -1, defaultStringType: 'PLAIN' }]. *)
Class YamlLib : Type := {
  parseYaml : string -> outcome jsval;
  stringifyYaml : jsval -> string
}.

(** [try { body } catch (error) { throw new Error(prefix + error.message) }]
    around a computation on the world. *)
Definition wrap_errors {A} (prefix : string) (body : io A) : io A :=
  try_catch body (fun msg => throw (prefix +:+ msg)).

(** The loop that returns at the first child of type [yaml]. *)
Fixpoint first_yaml {block} (children : list (node block)) : option string :=
  match children with
  | [] => None
  | yaml value :: _ => Some value
  | other _ :: rest => first_yaml rest
  end.

(** The loop of [updateFrontmatterInContent] that looks for the index of the
    first child of type [yaml], from index [i] on. *)
Fixpoint find_frontmatter {block} (children : list (node block)) (i : nat)
  : option nat :=
  match children with
  | [] => None
  | child :: rest => if is_yaml child then Some i else find_frontmatter rest (S i)
  end.

(** ** MarkdownFrontmatterUpdater *)

Module Updater.

(** The message of the error thrown when there is no frontmatter to update
    and none may be created (the specification's NoFrontmatterError). *)
Definition NoFrontmatterError : string :=
  "No frontmatter found and createIfMissing is false".

Record FrontmatterUpdaterOptions : Type := {
  createIfMissing : bool;
  preserveFormatting : bool
}.

Record MarkdownFrontmatterUpdater : Type := {
  filePath : string;
  options : FrontmatterUpdaterOptions
}.

(** The constructor's defaults, overridden by the options given. *)
Definition new_MarkdownFrontmatterUpdater (resolvedPath : string)
    (createIfMissing' preserveFormatting' : option bool)
  : MarkdownFrontmatterUpdater :=
  {| filePath := resolvedPath;
     options := {| createIfMissing := default false createIfMissing';
                   preserveFormatting := default true preserveFormatting' |} |}.

Section Frontmatter.
Context {md : MarkdownLib} {yml : YamlLib}.

Definition encode_frontmatter (newFrontmatter : jsval) : string :=
  trim (stringifyYaml newFrontmatter).

(** [updateFrontmatterInContent(content, newFrontmatter)] *)
Definition updateFrontmatterInContent (this : MarkdownFrontmatterUpdater)
    (content : string) (newFrontmatter : jsval) : outcome string :=
  rethrow "Failed to update frontmatter in content: "
    (let ast := fromMarkdown content in
     match find_frontmatter ast 0 with
     | Some frontmatterIndex =>
         Returned (toMarkdown
           (<[frontmatterIndex := yaml (encode_frontmatter newFrontmatter)]> ast))
     | None =>
         if createIfMissing (options this) then
           Returned (toMarkdown (yaml (encode_frontmatter newFrontmatter) :: ast))
         else Thrown NoFrontmatterError
     end).

(** The document with the value of its [yaml] node at index [i] replaced by
    the encoding of [mapping]: what the first branch of
    [updateFrontmatterInContent] returns. *)
Definition with_frontmatter (content : string) (i : nat)
    (mapping : gmap string jsval) : string :=
  toMarkdown (<[i := yaml (encode_frontmatter (JObj mapping))]> (fromMarkdown content)).

(** [extractExistingFrontmatter(content)] *)
Definition extractExistingFrontmatter (content : string) : outcome (option jsval) :=
  rethrow "Failed to extract existing frontmatter: "
    (match first_yaml (fromMarkdown content) with
     | Some value =>
         match parseYaml value with
         | Returned v => Returned (Some (js_or v (JObj ∅)))
         | Thrown msg => Thrown msg
         end
     | None => Returned None
     end).

(** [updateFrontmatter(updates)] *)
Definition updateFrontmatter (this : MarkdownFrontmatterUpdater)
    (updates : gmap string jsval) : io unit :=
  wrap_errors ("Failed to update frontmatter in " +:+ filePath this +:+ ": ")
    (content <- readFile (filePath this) ;;
     updatedContent <- lift (updateFrontmatterInContent this content (JObj updates)) ;;
     writeFile (filePath this) updatedContent).

(** [updateFields(fieldUpdates)] *)
Definition updateFields (this : MarkdownFrontmatterUpdater)
    (fieldUpdates : gmap string jsval) : io unit :=
  wrap_errors ("Failed to update fields in " +:+ filePath this +:+ ": ")
    (content <- readFile (filePath this) ;;
     existingFrontmatter <- lift (extractExistingFrontmatter content) ;;
     let updatedFrontmatter := spread2 existingFrontmatter (Some (JObj fieldUpdates)) in
     updatedContent <-
       lift (updateFrontmatterInContent this content (JObj updatedFrontmatter)) ;;
     writeFile (filePath this) updatedContent).

(** [for (const field of fieldsToRemove) delete updatedFrontmatter[field]] *)
Definition delete_fields (fieldsToRemove : list string) (o : gmap string jsval)
  : gmap string jsval :=
  foldl (fun acc field => delete field acc) o fieldsToRemove.

(** [removeFields(fieldsToRemove)] *)
Definition removeFields (this : MarkdownFrontmatterUpdater)
    (fieldsToRemove : list string) : io unit :=
  wrap_errors ("Failed to remove fields from " +:+ filePath this +:+ ": ")
    (content <- readFile (filePath this) ;;
     existingFrontmatter <- lift (extractExistingFrontmatter content) ;;
     if js_not existingFrontmatter then ret tt
     else
       let updatedFrontmatter :=
         delete_fields fieldsToRemove (CopyDataProperties ∅ existingFrontmatter) in
       updatedContent <-
         lift (updateFrontmatterInContent this content (JObj updatedFrontmatter)) ;;
       writeFile (filePath this) updatedContent).

(** [getCurrentFrontmatter()] *)
Definition getCurrentFrontmatter (this : MarkdownFrontmatterUpdater)
  : io (option jsval) :=
  wrap_errors ("Failed to read frontmatter from " +:+ filePath this +:+ ": ")
    (content <- readFile (filePath this) ;;
     lift (extractExistingFrontmatter content)).

End Frontmatter.

End Updater.

(** ** MarkdownFrontmatterExtractor *)

Module Extractor.

Record FrontmatterExtractorOptions : Type := {
  fields : option (list string)
}.

Record MarkdownFrontmatterExtractor : Type := {
  filePath : string;
  options : FrontmatterExtractorOptions
}.

(** [new MarkdownFrontmatterExtractor(filePath)] with the default options
    [{}]. *)
Definition new_MarkdownFrontmatterExtractor (resolvedPath : string)
  : MarkdownFrontmatterExtractor :=
  {| filePath := resolvedPath; options := {| fields := None |} |}.

(** [filterFields(data, fields)]: the loop over [fields], threading
    [filtered]. *)
Fixpoint filter_loop (data : jsval) (fields : list string)
    (filtered : gmap string jsval) : outcome (gmap string jsval) :=
  match fields with
  | [] => Returned filtered
  | field :: rest =>
      match has_property field data with
      | Thrown msg => Thrown msg
      | Returned true =>
          filter_loop data rest (js_set filtered field (get_property data field))
      | Returned false => filter_loop data rest filtered
      end
  end.

Definition filterFields (data : jsval) (fields : list string)
  : outcome (gmap string jsval) :=
  filter_loop data fields ∅.

Section Frontmatter.
Context {md : MarkdownLib} {yml : YamlLib}.

(** [parseFrontmatter(content)] *)
Definition parseFrontmatter (content : string) : outcome (option jsval) :=
  rethrow "Failed to parse frontmatter: "
    (match first_yaml (fromMarkdown content) with
     | Some value =>
         match parseYaml value with
         | Returned v => Returned (Some (js_or v (JObj ∅)))
         | Thrown msg => Thrown msg
         end
     | None => Returned None
     end).

(** [extract()] *)
Definition extract (this : MarkdownFrontmatterExtractor) : io (option jsval) :=
  wrap_errors ("Failed to extract frontmatter from " +:+ filePath this +:+ ": ")
    (content <- readFile (filePath this) ;;
     frontmatterData <- lift (parseFrontmatter content) ;;
     match frontmatterData with
     | None => ret None                          (* [!null] *)
     | Some data =>
         if negb (truthy data) then ret None     (* [!frontmatterData] *)
         else
           match fields (options this) with
           | Some ((_ :: _) as fs) =>
               filtered <- lift (filterFields data fs) ;;
               ret (Some (JObj filtered))
           | _ => ret (Some data)
           end
     end).

End Frontmatter.

End Extractor.

(** ** Regular expressions

    The fragment of JavaScript's pattern syntax (without flags) that a glob
    pattern can reach: literal characters, [.], escaped syntax characters,
    the assertions [^] and [$], and the greedy quantifiers [*], [+], [?].
    Groups, classes, alternatives, braces, lazy quantifiers and the other
    escapes are [Unsupported]: for them the engine is the host's. *)

Module RegExp.

Inductive atom : Type :=
| AnyChar                (* [.]: any code unit but a line terminator *)
| Char (c : ascii).

Inductive quantifier : Type := Once | ZeroOrMore | OneOrMore | Optional.

Inductive term : Type :=
| AssertStart
| AssertEnd
| Atom (a : atom) (q : quantifier).

Inductive parsed : Type :=
| Pattern (ts : list term)
| SyntaxError (message : string)
| Unsupported.

(** What the parser has just read. *)
Inductive last_read : Type :=
| Nothing                (* the start of the pattern, or an assertion *)
| Pending (a : atom)     (* an atom that a quantifier may still follow *)
| Quantified             (* a quantifier *)
| Backslash (p : option atom).  (* a backslash; [p] is the atom before it *)

Definition is_syntax_char (c : ascii) : bool :=
  bool_decide (c ∈ String.list_ascii_of_string "^$\.*+?()[]{}|/").

Definition flush (l : last_read) (acc : list term) : list term :=
  match l with
  | Pending a => Atom a Once :: acc
  | _ => acc
  end.

(** [acc] holds the terms read so far, last first. *)
Fixpoint parse_from (s : string) (l : last_read) (acc : list term) : parsed :=
  match s with
  | EmptyString =>
      match l with
      | Backslash _ => SyntaxError "\ at end of pattern"
      | _ => Pattern (rev (flush l acc))
      end
  | String c rest =>
      match l with
      | Backslash p =>
          if is_syntax_char c
          then parse_from rest (Pending (Char c)) (flush (from_option Pending Nothing p) acc)
          else Unsupported
      | _ =>
          if Ascii.eqb c "\" then
            parse_from rest
              (Backslash (match l with Pending a => Some a | _ => None end)) acc
          else if Ascii.eqb c "^" then parse_from rest Nothing (AssertStart :: flush l acc)
          else if Ascii.eqb c "$" then parse_from rest Nothing (AssertEnd :: flush l acc)
          else if Ascii.eqb c "." then parse_from rest (Pending AnyChar) (flush l acc)
          else if (Ascii.eqb c "*" || Ascii.eqb c "+" || Ascii.eqb c "?")%bool then
            match l with
            | Pending a =>
                parse_from rest Quantified
                  (Atom a (if Ascii.eqb c "*" then ZeroOrMore
                           else if Ascii.eqb c "+" then OneOrMore else Optional)
                   :: acc)
            | Quantified =>
                if Ascii.eqb c "?" then Unsupported
                else SyntaxError "Nothing to repeat"
            | _ => SyntaxError "Nothing to repeat"
            end
          else if is_syntax_char c then Unsupported
          else parse_from rest (Pending (Char c)) (flush l acc)
      end
  end.

Definition parse (source : string) : parsed := parse_from source Nothing [].

Definition not_backslash (l : last_read) : Prop :=
  match l with
  | Backslash _ => False
  | _ => True
  end.

Definition is_line_terminator (c : ascii) : bool :=
  (Ascii.eqb c (ascii_of_nat 10) || Ascii.eqb c (ascii_of_nat 13))%bool.

Definition atom_matches (a : atom) (c : ascii) : bool :=
  match a with
  | AnyChar => negb (is_line_terminator c)
  | Char c' => Ascii.eqb c' c
  end.

(** Whether the terms match a prefix of [s]; [at_start] tells whether [s]
    is the whole input. *)
Fixpoint matches (ts : list term) : bool -> string -> bool :=
  match ts with
  | [] => fun _ _ => true
  | AssertStart :: r => fun at_start s => at_start && matches r at_start s
  | AssertEnd :: r => fun at_start s =>
      match s with EmptyString => matches r at_start s | _ => false end
  | Atom a Once :: r => fun _ s =>
      match s with
      | String c s' => atom_matches a c && matches r false s'
      | EmptyString => false
      end
  | Atom a Optional :: r => fun at_start s =>
      match s with
      | String c s' => (atom_matches a c && matches r false s') || matches r at_start s
      | EmptyString => matches r at_start s
      end
  | Atom a ZeroOrMore :: r =>
      fix star (at_start : bool) (s : string) : bool :=
        matches r at_start s ||
        match s with
        | String c s' => atom_matches a c && star false s'
        | EmptyString => false
        end
  | Atom a OneOrMore :: r => fun _ s =>
      match s with
      | String c s' =>
          atom_matches a c &&
          (fix star (at_start : bool) (s : string) : bool :=
             matches r at_start s ||
             match s with
             | String c s' => atom_matches a c && star false s'
             | EmptyString => false
             end) false s'
      | EmptyString => false
      end
  end.

(** A match may start at any position of the input. *)
Fixpoint search (ts : list term) (at_start : bool) (s : string) : bool :=
  matches ts at_start s ||
  match s with
  | String _ s' => search ts false s'
  | EmptyString => false
  end.

(** [new RegExp(source).test(input)]; [host] answers for the patterns outside
    the fragment. *)
Definition test (host : string -> string -> outcome bool) (source input : string)
  : outcome bool :=
  match parse source with
  | Pattern ts => Returned (search ts true input)
  | SyntaxError msg =>
      Thrown ("Invalid regular expression: /" +:+ source +:+ "/: " +:+ msg)
  | Unsupported => host source input
  end.

End RegExp.

(** [s.replace(/c/g, replacement)] for a one-character pattern and a
    replacement without [$]. *)
Fixpoint replace_all (c : ascii) (replacement : string) (s : string) : string :=
  match s with
  | EmptyString => EmptyString
  | String x s' =>
      if Ascii.eqb x c then replacement +:+ replace_all c replacement s'
      else String x (replace_all c replacement s')
  end.

(** [s.includes(c)] for a one-character [c]. *)
Fixpoint includes (c : ascii) (s : string) : bool :=
  match s with
  | EmptyString => false
  | String x s' => Ascii.eqb x c || includes c s'
  end.

(** ** GenerativeTags *)

(** The Node built-ins and the AI SDK that GenerativeTags calls. *)
Class Host : Type := {
  (* [JSON.stringify(value, null, 2)] *)
  JSON_stringify : jsval -> string;
  (* [generateObject({ model, system, prompt, schema })]: the answer to the
     n-th request, [result.object.tags], or the error thrown *)
  generateObject : nat -> string -> outcome (list string);
  path_dirname : string -> string;
  path_basename : string -> string;
  path_join : string -> string -> string;
  (* the regular expression engine outside the modelled fragment *)
  RegExp_host : string -> string -> outcome bool
}.

Module GenerativeTags.

Record GenerativeTagsOptions : Type := {
  createIfMissing : bool
}.

Record GenerativeTags : Type := {
  filePath : string;
  options : GenerativeTagsOptions
}.

(** [fs.readdir(dir)] *)
Definition readdir (dir : string) : io (list string) :=
  fun w =>
    match dirs w !! dir with
    | Some names => (Returned names, w)
    | None =>
        (Thrown ("ENOENT: no such file or directory, scandir '" +:+ dir +:+ "'"), w)
    end.

(** [(await fs.stat(path)).isFile()] *)
Definition stat_isFile (path : string) : io bool :=
  fun w =>
    match files w !! path, dirs w !! path with
    | Some _, _ => (Returned true, w)
    | None, Some _ => (Returned false, w)
    | None, None =>
        (Thrown ("ENOENT: no such file or directory, stat '" +:+ path +:+ "'"), w)
    end.

Section Tags.
Context {md : MarkdownLib} {yml : YamlLib} {host : Host}.

(** [matchesGlob(filename, pattern)] *)
Definition matchesGlob (filename pattern : string) : outcome bool :=
  let regexPattern :=
    replace_all "?" "." (replace_all "*" ".*" (replace_all "." "\." pattern)) in
  RegExp.test RegExp_host ("^" +:+ regexPattern +:+ "$") filename.

(** [isGlobPattern(filePath)] *)
Definition isGlobPattern (filePath : string) : bool :=
  includes "*" filePath || includes "?" filePath.

(** The AI request: one more call is counted, whatever its outcome. *)
Definition ai_request (prompt : string) : io (list string) :=
  fun w =>
    (generateObject (ai_calls w) prompt,
     mkWorld (files w) (dirs w) (written w) (console w) (S (ai_calls w))).

(** [generateTags(frontmatter)] *)
Definition generateTags (frontmatter : option jsval) : io (list string) :=
  wrap_errors "Failed to generate tags with AI: "
    (let userPrompt :=
       match frontmatter with
       | Some v => if truthy v then JSON_stringify v else "No frontmatter available"
       | None => "No frontmatter available"
       end in
     tags <- ai_request userPrompt ;;
     if Nat.eqb (List.length tags) 0 then throw "No tags generated from AI response"
     else ret (take 3 tags)).

(** The object [{ tags }]. *)
Definition tags_object (tags : list string) : gmap string jsval :=
  {[ "tags" := JArr (JStr <$> tags) ]}.

(** [processSingleFile(filePath)] *)
Definition processSingleFile (this : GenerativeTags) (filePath : string) : io unit :=
  try_catch
    (let extractor := Extractor.new_MarkdownFrontmatterExtractor filePath in
     existingFrontmatter <- Extractor.extract extractor ;;
     tags <- generateTags existingFrontmatter ;;
     let updater :=
       Updater.new_MarkdownFrontmatterUpdater filePath
         (Some (createIfMissing (options this))) None in
     (if negb (js_not existingFrontmatter) then
        Updater.updateFields updater (tags_object tags)
      else if createIfMissing (options this) then
        Updater.updateFrontmatter updater (tags_object tags)
      else throw Updater.NoFrontmatterError) ;;;
     console_emit (log_generated filePath tags))
    (fun msg => console_emit (error_failed_to_process filePath msg) ;;; throw msg).

(** The loop of [findMatchingFiles] over the directory's entries. *)
Fixpoint collect_matching (dir pattern : string) (entries : list string)
    (matchingFiles : list string) : io (list string) :=
  match entries with
  | [] => ret matchingFiles
  | file :: rest =>
      let fullPath := path_join dir file in
      isFile <- stat_isFile fullPath ;;
      matched <- (if isFile then lift (matchesGlob file pattern) else ret false) ;;
      collect_matching dir pattern rest
        (if matched then matchingFiles ++ [fullPath] else matchingFiles)
  end.

(** [findMatchingFiles()] *)
Definition findMatchingFiles (this : GenerativeTags) : io (list string) :=
  let dir := path_dirname (filePath this) in
  let pattern := path_basename (filePath this) in
  wrap_errors ("Failed to read directory " +:+ dir +:+ ": ")
    (entries <- readdir dir ;;
     collect_matching dir pattern entries []).

(** The loop of [processGlobPattern] over the matching files: a failure is
    logged and the loop goes on. *)
Fixpoint process_each (this : GenerativeTags) (matching : list string) : io unit :=
  match matching with
  | [] => ret tt
  | file :: rest =>
      try_catch (processSingleFile this file)
        (fun msg => console_emit (error_batch_failed file msg)) ;;;
      process_each this rest
  end.

(** [processGlobPattern()] *)
Definition processGlobPattern (this : GenerativeTags) : io unit :=
  wrap_errors "Failed to process glob pattern: "
    (matching <- findMatchingFiles this ;;
     if Nat.eqb (List.length matching) 0 then console_emit log_no_files_found
     else
       console_emit (log_found_files (List.length matching)) ;;;
       process_each this matching).

(** [run()] *)
Definition run (this : GenerativeTags) : io unit :=
  wrap_errors "Failed to generate tags: "
    (if isGlobPattern (filePath this) then processGlobPattern this
     else processSingleFile this (filePath this)).

End Tags.

End GenerativeTags.

(** ** Glob matching as the specification words it

    [*] matches any run of characters, [?] any single character, every other
    character of the pattern only itself.  This definition follows the
    specification, not the code; [GenerativeTags.matchesGlob] is compared
    with it. *)
Fixpoint glob_spec (pattern : string) : string -> bool :=
  match pattern with
  | EmptyString => fun s => match s with EmptyString => true | _ => false end
  | String p rest =>
      if Ascii.eqb p "*" then
        fix run (s : string) : bool :=
          glob_spec rest s ||
          match s with
          | String _ s' => run s'
          | EmptyString => false
          end
      else if Ascii.eqb p "?" then
        fun s => match s with String _ s' => glob_spec rest s' | EmptyString => false end
      else
        fun s =>
          match s with
          | String c s' => Ascii.eqb p c && glob_spec rest s'
          | EmptyString => false
          end
  end.

(** The characters of a pattern on which the code's translation is
    faithful: [*], [?], [.] (which the code escapes) and every character that
    is not a syntax character of regular expressions. *)
Definition glob_safe_char (c : ascii) : bool :=
  Ascii.eqb c "*" || Ascii.eqb c "?" || Ascii.eqb c "."
  || negb (RegExp.is_syntax_char c).

Definition no_line_terminator (c : ascii) : bool :=
  negb (RegExp.is_line_terminator c).

Fixpoint string_forallb (f : ascii -> bool) (s : string) : bool :=
  match s with
  | EmptyString => true
  | String c s' => f c && string_forallb f s'
  end.

(** The three [replace] calls of [matchesGlob] as one pass over the
    pattern, and the terms the result parses to. *)
Definition glob_char_source (c : ascii) : string :=
  if Ascii.eqb c "." then "\."
  else if Ascii.eqb c "*" then ".*"
  else if Ascii.eqb c "?" then "."
  else String c "".

Fixpoint glob_source (pattern : string) : string :=
  match pattern with
  | EmptyString => ""
  | String c rest => glob_char_source c +:+ glob_source rest
  end.

Definition glob_term (c : ascii) : RegExp.term :=
  if Ascii.eqb c "*" then RegExp.Atom RegExp.AnyChar RegExp.ZeroOrMore
  else if Ascii.eqb c "?" then RegExp.Atom RegExp.AnyChar RegExp.Once
  else RegExp.Atom (RegExp.Char c) RegExp.Once.

Fixpoint glob_terms (pattern : string) : list RegExp.term :=
  match pattern with
  | EmptyString => []
  | String c rest => glob_term c :: glob_terms rest
  end.

(** ** Field projection as the specification words it

    The entries of the mapping whose key is one of the requested fields.
    This definition follows the specification, not the code;
    [Extractor.filterFields] is compared with it. *)
Definition fields_spec (m : gmap string jsval) (fields : list string)
  : gmap string jsval :=
  filter (fun kv => kv.1 ∈ fields) m.

(** ** The document codec of the specification *)

Module FenceCodec.

(** [s.split("\n")] *)
Fixpoint split_lines (s : string) : list string :=
  match s with
  | EmptyString => [""]
  | String c s' =>
      if Ascii.eqb c (ascii_of_nat 10) then "" :: split_lines s'
      else
        match split_lines s' with
        | l :: ls => String c l :: ls
        | [] => [String c ""]
        end
  end.

(** [lines.join("\n")] *)
Fixpoint join_lines (ls : list string) : string :=
  match ls with
  | [] => ""
  | [l] => l
  | l :: ls' => l +:+ nl +:+ join_lines ls'
  end.

Definition fence : string := "---".

(** The lines before the first fence line, and those after it. *)
Fixpoint break_at_fence (ls : list string) : option (list string * list string) :=
  match ls with
  | [] => None
  | l :: ls' =>
      if String.eqb l fence then Some ([], ls')
      else
        match break_at_fence ls' with
        | Some (before, after) => Some (l :: before, after)
        | None => None
        end
  end.

(** Modelled from the spec: the fence scanner of section 4.1 (Decode), the
    specification's reading of a document.  A document begins with a
    metadata block when its first line is the fence and a later line closes
    it; the text between the fences is the YAML text and all remaining text
    is the content.  (What the mdast packages read is [Mdast.read].) *)
Definition split_frontmatter (content : string) : option (string * string) :=
  match split_lines content with
  | first :: ls =>
      if String.eqb first fence then
        match break_at_fence ls with
        | Some (before, after) => Some (join_lines before, join_lines after)
        | None => None
        end
      else None
  | [] => None
  end.

Definition content_blocks (text : string) : list (node string) :=
  if String.eqb text "" then [] else [other text].

(** Modelled from the spec: Decode of section 4.1 (zero or one Metadata
    block, first; the rest is Content). *)
Definition decode (content : string) : list (node string) :=
  match split_frontmatter content with
  | Some (yamlText, rest) => yaml yamlText :: content_blocks rest
  | None => content_blocks content
  end.

Definition render (n : node string) : string :=
  match n with
  | yaml value => fence +:+ nl +:+ value +:+ nl +:+ fence +:+ nl
  | other text => text
  end.

(** Modelled from the spec: Encode of section 4.1.  The YAML text is
    wrapped between the fences and prepended to the content blocks, each as
    it was in the original.  (The mdast serializer, which the source calls,
    writes the content blocks in its own form instead: [Mdast.to_text].) *)
Fixpoint encode (blocks : list (node string)) : string :=
  match blocks with
  | [] => ""
  | n :: rest => render n +:+ encode rest
  end.

#[export] Instance codec : MarkdownLib :=
  {| block := string; fromMarkdown := decode; toMarkdown := encode |}.

End FenceCodec.

(** ** The mdast packages on plain documents

    What mdast-util-from-markdown and mdast-util-to-markdown do, with the
    frontmatter extension and their default options, on a fragment of
    markdown: an optional metadata block at the start, then ATX headings,
    one-line paragraphs and tight bullet lists of one-line items, each
    made of plain text and separated by blank lines.  On this fragment the
    parser gives one node per block and the serializer writes the nodes
    separated by one blank line, bullets as [*], and a final line break.
    Every other document and every other tree is left to the packages
    ([Rest]). *)
Module Mdast.

(** A block of the fragment, or a node of any other kind. *)
Inductive mblock (foreign : Type) : Type :=
| heading (depth : nat) (text : string)
| paragraph (text : string)
| bullets (items : list string)
| unmodelled (b : foreign).
Arguments heading {foreign} depth text.
Arguments paragraph {foreign} text.
Arguments bullets {foreign} items.
Arguments unmodelled {foreign} b.

(** The packages outside the fragment. *)
Class Rest : Type := {
  foreign : Type;
  fromMarkdown_rest : string -> list (node (mblock foreign));
  toMarkdown_rest : list (node (mblock foreign)) -> string
}.

Definition is_letter (c : ascii) : bool :=
  let n := nat_of_ascii c in
  (Nat.leb 65 n && Nat.leb n 90) || (Nat.leb 97 n && Nat.leb n 122).

Definition is_digit (c : ascii) : bool :=
  let n := nat_of_ascii c in Nat.leb 48 n && Nat.leb n 57.

Definition text_char (c : ascii) : bool :=
  is_letter c || is_digit c || Ascii.eqb c " " || Ascii.eqb c ".".

Fixpoint last_is_space (s : string) : bool :=
  match s with
  | EmptyString => false
  | String c EmptyString => Ascii.eqb c " "
  | String _ s' => last_is_space s'
  end.

(** Text that markdown reads as it stands and that the serializer does not
    escape: letters, digits, spaces and full stops, from a letter on and
    not up to a space. *)
Definition plain_text (s : string) : bool :=
  match s with
  | String c _ => is_letter c && string_forallb text_char s && negb (last_is_space s)
  | EmptyString => false
  end.

(** The documents considered: line feeds and printable ASCII. *)
Definition document_char (c : ascii) : bool :=
  let n := nat_of_ascii c in
  Nat.eqb n 10 || (Nat.leb 32 n && Nat.leb n 126).

Fixpoint hashes (depth : nat) : string :=
  match depth with
  | O => ""
  | S d => String "#" (hashes d)
  end.

(** The number of [#] a line starts with, and what follows them. *)
Fixpoint leading_hashes (l : string) : nat * string :=
  match l with
  | String c l' =>
      if Ascii.eqb c "#" then
        let (d, rest) := leading_hashes l' in (S d, rest)
      else (O, l)
  | EmptyString => (O, EmptyString)
  end.

(** A line as a list item: the bullet and the text. *)
Definition item_of (l : string) : option (ascii * string) :=
  match l with
  | String m (String sp text) =>
      if (Ascii.eqb m "-" || Ascii.eqb m "*") && Ascii.eqb sp " " && plain_text text
      then Some (m, text) else None
  | _ => None
  end.

Fixpoint items_of (bullet : ascii) (ls : list string) : option (list string) :=
  match ls with
  | [] => Some []
  | l :: ls' =>
      match item_of l, items_of bullet ls' with
      | Some (m, text), Some texts =>
          if Ascii.eqb m bullet then Some (text :: texts) else None
      | _, _ => None
      end
  end.

(** The block that a run of lines without a blank line makes. *)
Definition block_of {foreign} (chunk : list string) : option (mblock foreign) :=
  match chunk with
  | [] => None
  | l :: ls =>
      match item_of l with
      | Some (m, _) => bullets <$> items_of m chunk
      | None =>
          match ls with
          | [] =>
              if plain_text l then Some (paragraph l)
              else
                match leading_hashes l with
                | (d, String sp text) =>
                    if Nat.leb 1 d && Nat.leb d 6 && Ascii.eqb sp " " && plain_text text
                    then Some (heading d text) else None
                | _ => None
                end
          | _ :: _ => None
          end
      end
  end.

(** The runs of lines between blank lines. *)
Fixpoint chunks (ls : list string) (current : list string) : list (list string) :=
  match ls with
  | [] => match current with [] => [] | _ => [current] end
  | l :: ls' =>
      if String.eqb l "" then
        match current with
        | [] => chunks ls' []
        | _ => current :: chunks ls' []
        end
      else chunks ls' (current ++ [l])
  end.

Fixpoint blocks_of {foreign} (cs : list (list string)) : option (list (mblock foreign)) :=
  match cs with
  | [] => Some []
  | c :: cs' =>
      match block_of c, blocks_of cs' with
      | Some b, Some bs => Some (b :: bs)
      | _, _ => None
      end
  end.

Definition is_list {foreign} (n : node (mblock foreign)) : bool :=
  match n with
  | other (bullets _) => true
  | _ => false
  end.

Definition plain_node {foreign} (n : node (mblock foreign)) : bool :=
  match n with
  | yaml _ => true
  | other (heading d text) => Nat.leb 1 d && Nat.leb d 6 && plain_text text
  | other (paragraph text) => plain_text text
  | other (bullets items) =>
      match items with
      | [] => false
      | _ => forallb plain_text items
      end
  | other (unmodelled _) => false
  end.

(** Two lists in a row are outside the fragment: in a document they are one
    list, and the serializer changes the bullet of the second. *)
Fixpoint no_adjacent_lists {foreign} (tree : list (node (mblock foreign))) : bool :=
  match tree with
  | n :: rest =>
      match rest with
      | m :: _ => negb (is_list n && is_list m)
      | [] => true
      end && no_adjacent_lists rest
  | [] => true
  end.

(** The trees of the fragment. *)
Definition plain_tree {foreign} (tree : list (node (mblock foreign))) : bool :=
  forallb plain_node tree && no_adjacent_lists tree.

(** The content blocks of the lines after the metadata block. *)
Definition read_blocks {foreign} (ls : list string) : option (list (mblock foreign)) :=
  match blocks_of (chunks ls []) with
  | Some bs => if plain_tree (other <$> bs) then Some bs else None
  | None => None
  end.

(** A document of the fragment: the YAML text of its metadata block, if it
    starts with one, and its content blocks. *)
Definition read {foreign} (content : string)
  : option (option string * list (mblock foreign)) :=
  if string_forallb document_char content then
    match FenceCodec.split_lines content with
    | first :: ls =>
        if String.eqb first "---" then
          match FenceCodec.break_at_fence ls with
          | Some (before, after) =>
              if forallb (fun l => negb (String.prefix "---" l)) before then
                match read_blocks after with
                | Some bs => Some (Some (FenceCodec.join_lines before), bs)
                | None => None
                end
              else None
          | None => None
          end
        else
          match read_blocks (first :: ls) with
          | Some bs => Some (None, bs)
          | None => None
          end
    | [] => None
    end
  else None.

Definition tree_of {foreign} (frontmatter : option string) (bs : list (mblock foreign))
  : list (node (mblock foreign)) :=
  match frontmatter with
  | Some value => yaml value :: (other <$> bs)
  | None => other <$> bs
  end.

(** The [yaml] node as the frontmatter extension writes it. *)
Definition fenced (value : string) : string :=
  "---" +:+ (if String.eqb value "" then "" else nl +:+ value) +:+ nl +:+ "---".

(** The text of a block of the fragment.  (A node of another kind never
    reaches this function: [lib] leaves every tree that holds one to the
    packages.) *)
Definition render_block {foreign} (b : mblock foreign) : string :=
  match b with
  | heading d text => hashes d +:+ " " +:+ text
  | paragraph text => text
  | bullets items => FenceCodec.join_lines ((fun text => "* " +:+ text) <$> items)
  | unmodelled _ => ""
  end.

Definition render_node {foreign} (n : node (mblock foreign)) : string :=
  match n with
  | yaml value => fenced value
  | other b => render_block b
  end.

(** The nodes, one blank line between any two. *)
Fixpoint join_blocks (parts : list string) : string :=
  match parts with
  | [] => ""
  | [p] => p
  | p :: rest => p +:+ nl +:+ nl +:+ join_blocks rest
  end.

(** The text of a tree of the fragment: it ends with a line break unless it
    is empty. *)
Definition to_text {foreign} (tree : list (node (mblock foreign))) : string :=
  match tree with
  | [] => ""
  | _ => join_blocks (render_node <$> tree) +:+ nl
  end.

(** What follows the closing fence when content blocks come after a [yaml]
    node. *)
Definition following {foreign} (bs : list (mblock foreign)) : string :=
  match bs with
  | [] => nl
  | _ => nl +:+ nl +:+ join_blocks (render_block <$> bs) +:+ nl
  end.

Definition lib (rest : Rest) : MarkdownLib :=
  {| block := mblock foreign;
     fromMarkdown := fun content =>
       match read content with
       | Some (frontmatter, bs) => tree_of frontmatter bs
       | None => fromMarkdown_rest content
       end;
     toMarkdown := fun tree =>
       if plain_tree tree then to_text tree else toMarkdown_rest tree |}.

End Mdast.

(** ** Fixtures

    Stand-ins for the yaml package and the host on a handful of texts, used
    to run the model on concrete documents.  The theorems quantify over every
    [YamlLib] and [Host]. *)

Module Fixture.

Definition render_entry (kv : string * jsval) : string :=
  match kv.2 with
  | JArr [] => kv.1 +:+ ": []" +:+ nl
  | JArr items =>
      kv.1 +:+ ":" +:+ nl
      +:+ foldr (fun item acc => "  - " +:+ to_display item +:+ nl +:+ acc) "" items
  | v => kv.1 +:+ ": " +:+ to_display v +:+ nl
  end.

(** Flat mappings of plain scalars and of sequences of plain scalars: one
    [key: value] line each, a sequence in block style. *)
Definition stringify (v : jsval) : string :=
  match v with
  | JObj o =>
      if bool_decide (o = ∅) then "{}" +:+ nl
      else foldr (fun kv acc => render_entry kv +:+ acc) "" (map_to_list o)
  | _ => to_display v +:+ nl
  end.

(** The YAML texts of the examples, with the values the yaml package reads
    from them. *)
Definition parse (text : string) : outcome jsval :=
  if String.eqb text "title: T" then Returned (JObj {[ "title" := JStr "T" ]})
  else if String.eqb text "draft: true" then Returned (JObj {[ "draft" := JBool true ]})
  else if String.eqb text "{}" then Returned (JObj ∅)
  else if String.eqb text "" then Returned JNull
  else if String.eqb text "null" then Returned JNull
  else if String.eqb text "false" then Returned (JBool false)
  else if String.eqb text "0" then Returned (JNum 0)
  else if String.eqb text "hello" then Returned (JStr "hello")
  else Thrown "YAMLParseError".

#[export] Instance yaml_lib : YamlLib :=
  {| parseYaml := parse; stringifyYaml := stringify |}.

(** A world with one file. *)
Definition one_file (path content : string) : world :=
  mkWorld {[ path := content ]} ∅ [] [] 0.

Definition with_frontmatter : string :=
  "---" +:+ nl +:+ "title: T" +:+ nl +:+ "---" +:+ nl +:+ "# Post" +:+ nl +:+ nl +:+ "- a" +:+ nl.

Definition without_frontmatter : string :=
  "# No Frontmatter Post" +:+ nl +:+ nl +:+ "This post has no frontmatter.".

Definition path : string := "/blog/post.md".

(** A document whose metadata block holds the YAML text [null]. *)
Definition with_null_frontmatter : string :=
  "---" +:+ nl +:+ "null" +:+ nl +:+ "---" +:+ nl +:+ "# Post" +:+ nl.

(** The world whose one file has a metadata block, and the one whose file
    has none. *)
Definition doc : world := one_file path with_frontmatter.
Definition plain : world := one_file path without_frontmatter.

Definition updater (createIfMissing : bool) : Updater.MarkdownFrontmatterUpdater :=
  Updater.new_MarkdownFrontmatterUpdater path (Some createIfMissing) None.

Definition extractor (fields : option (list string))
  : Extractor.MarkdownFrontmatterExtractor :=
  {| Extractor.filePath := path;
     Extractor.options := {| Extractor.fields := fields |} |}.

(** [path.dirname], [path.basename] and [path.join] on absolute POSIX paths
    without [.] and [..] segments. *)
Fixpoint split_last_slash (s : string) : option (string * string) :=
  match s with
  | EmptyString => None
  | String c s' =>
      match split_last_slash s' with
      | Some (d, b) => Some (String c d, b)
      | None => if Ascii.eqb c "/" then Some ("", s') else None
      end
  end.

Definition dirname (p : string) : string :=
  match split_last_slash p with
  | Some (d, _) => if String.eqb d "" then "/" else d
  | None => "."
  end.

Definition basename (p : string) : string :=
  match split_last_slash p with
  | Some (_, b) => b
  | None => p
  end.

Definition join (dir file : string) : string :=
  if String.eqb dir "/" then "/" +:+ file else dir +:+ "/" +:+ file.

(** An AI service whose second answer (request number 1) fails and whose
    other answers hold five tags. *)
Definition flaky_ai (n : nat) (prompt : string) : outcome (list string) :=
  if Nat.eqb n 1 then Thrown "service unavailable"
  else Returned ["a"; "b"; "c"; "d"; "e"].

#[export] Instance fixture_host : Host :=
  {| JSON_stringify := to_display;
     generateObject := flaky_ai;
     path_dirname := dirname;
     path_basename := basename;
     path_join := join;
     RegExp_host := fun _ _ => Thrown "pattern outside the modelled fragment" |}.

(** A directory with three markdown files, each with a metadata block, and
    one file of another kind. *)
Definition blog : world :=
  mkWorld
    {[ "/blog/a.md" := with_frontmatter; "/blog/b.md" := with_frontmatter;
       "/blog/c.md" := with_frontmatter; "/blog/notes.txt" := "notes" ]}
    {[ "/blog" := ["a.md"; "b.md"; "c.md"; "notes.txt"] ]}
    [] [] 0.

Definition batch : GenerativeTags.GenerativeTags :=
  {| GenerativeTags.filePath := "/blog/*.md";
     GenerativeTags.options := {| GenerativeTags.createIfMissing := false |} |}.

End Fixture.

(** ** Effects of the operations *)

(** A computation that, from any world, ends after exactly one
    [fs.writeFile] to [path] when it returns, and leaves the world as it was
    when it throws (the write, which is its last step, does not fail in
    this model). *)
Definition writes_once {A} (path : string) (m : io A) : Prop :=
  forall w,
    match m w with
    | (Thrown _, w') => w' = w
    | (Returned _, w') => exists content, w' = after_write w path content
    end.

(** The same, where a computation that returns may also have written
    nothing. *)
Definition writes_at_most_once {A} (path : string) (m : io A) : Prop :=
  forall w,
    match m w with
    | (Thrown _, w') => w' = w
    | (Returned _, w') => w' = w \/ exists content, w' = after_write w path content
    end.

(** Two worlds that differ at most in the file at [path] and in the trace
    of writes. *)
Definition differ_only_at (path : string) (w w' : world) : Prop :=
  (forall p, p <> path -> files w' !! p = files w !! p)
  /\ dirs w' = dirs w /\ console w' = console w /\ ai_calls w' = ai_calls w.

(** A computation that rewrites the file at [path], once, when it returns,
    and that touches nothing but that file when it throws. *)
Definition rewrites_only {A} (path : string) (m : io A) : Prop :=
  forall w,
    match m w with
    | (Returned _, w') => exists content, w' = after_write w path content
    | (Thrown _, w') => differ_only_at path w w'
    end.

(** The same, where a computation that returns may also have written
    nothing. *)
Definition rewrites_at_most {A} (path : string) (m : io A) : Prop :=
  forall w,
    match m w with
    | (Returned _, w') => w' = w \/ exists content, w' = after_write w path content
    | (Thrown _, w') => differ_only_at path w w'
    end.

(** The message of [fs.readFile] for a missing file. *)
Definition ENOENT_open (path : string) : string :=
  "ENOENT: no such file or directory, open '" +:+ path +:+ "'".

(** The world after one AI request, and after one line on the console. *)
Definition after_ai_request (w : world) : world :=
  mkWorld (files w) (dirs w) (written w) (console w) (S (ai_calls w)).

Definition after_console (w : world) (e : console_event) : world :=
  mkWorld (files w) (dirs w) (written w) (console w ++ [e]) (ai_calls w).

(** Whether [findMatchingFiles] keeps a directory entry: a regular file whose
    name [matchesGlob] accepts. *)
Definition selected {host : Host} (w : world) (dir pattern file : string) : bool :=
  bool_decide (is_Some (files w !! path_join dir file))
  && match GenerativeTags.matchesGlob file pattern with
     | Returned true => true
     | _ => false
     end.

(** One turn of the batch loop on [file], as the specification describes
    it: the file is processed, by [processSingleFile]; when that fails, the
    failure is reported and nothing else happens. *)
Definition batch_turn {md : MarkdownLib} {yml : YamlLib} {host : Host}
    (this : GenerativeTags.GenerativeTags) (w : world) (file : string) : world :=
  match GenerativeTags.processSingleFile this file w with
  | (Returned _, w') => w'
  | (Thrown msg, w') => after_console w' (error_batch_failed file msg)
  end.

(** The characters of a pattern without wildcards on which the code's
    translation is faithful: [.] and every character that is not a syntax
    character of regular expressions. *)
Definition glob_literal_char (c : ascii) : bool :=
  Ascii.eqb c "." || negb (RegExp.is_syntax_char c).

(** ** The command line

    The commands of [src/bin/cli.ts]: [extract-frontmatter],
    [update-frontmatter] and [generate-tags], their hand-written argument
    parsing, and [main]. *)

Module Cli.

(** [s.split(sep)] for a one-character separator. *)
Fixpoint split (sep : ascii) (s : string) : list string :=
  match s with
  | EmptyString => [""]
  | String c s' =>
      if Ascii.eqb c sep then "" :: split sep s'
      else
        match split sep s' with
        | l :: ls => String c l :: ls
        | [] => [String c ""]
        end
  end.

(** [parts.join(sep)] for a one-character separator. *)
Fixpoint join (sep : ascii) (parts : list string) : string :=
  match parts with
  | [] => ""
  | [p] => p
  | p :: rest => p +:+ String sep (join sep rest)
  end.

(** [s.startsWith(prefix)] *)
Definition startsWith (prefix s : string) : bool := String.prefix prefix s.

(** [option.split('=')[1]]; [None] is [undefined]. *)
Definition option_value (opt : string) : option string :=
  split "=" opt !! 1.

(** [text.split(',').map(f => f.trim())] *)
Definition parse_list (text : string) : list string :=
  trim <$> split "," text.

(** The [--fields=] option of the argument list, as the extract commands read
    it: the first argument that starts with [--fields=], if its value is not
    empty. *)
Definition fields_option (args : list string) : option (list string) :=
  match List.find (startsWith "--fields=") args with
  | Some fieldsOption =>
      match option_value fieldsOption with
      | Some fields => if String.eqb fields "" then None else Some (parse_list fields)
      | None => None
      end
  | None => None
  end.

Definition is_quote (c : ascii) : bool :=
  Ascii.eqb c (ascii_of_nat 34) || Ascii.eqb c "'".

Definition strip_leading_quote (s : string) : string :=
  match s with
  | String c s' => if is_quote c then s' else s
  | EmptyString => EmptyString
  end.

(** [value.replace(/^["']|["']$/g, '')]: one quote character is removed from
    the start and one from the end, where there is one. *)
Definition strip_quotes (value : string) : string :=
  String.rev (strip_leading_quote (String.rev (strip_leading_quote value))).

(** The body of the loop over the [--set] arguments. *)
Definition set_field (fieldUpdates : gmap string jsval) (arg : string)
  : gmap string jsval :=
  if includes "=" arg then
    match take 2 (split "=" arg) with
    | [key; value] =>
        if negb (String.eqb key "") && negb (String.eqb value "")
        then js_set fieldUpdates key (JStr (strip_quotes value))
        else fieldUpdates
    | _ => fieldUpdates
    end
  else fieldUpdates.

(** [for (const setArg of setArgs) { ... }], from the empty object. *)
Definition parse_set (setArgs : list string) : gmap string jsval :=
  foldl set_field ∅ setArgs.

(** A field name that the list syntax can carry: not empty, free of [,] and
    [=], and without white space around it. *)
Definition plain_name (n : string) : Prop :=
  n <> "" /\ includes "," n = false /\ includes "=" n = false /\ trim n = n.

(** What the command writes: a line on standard output, a line on standard
    error, the usage text on standard error ([showUsage]), or an error
    object printed by [console.error(error)]. *)
Inductive cli_output : Type :=
| stdout_line (text : string)
| stderr_line (text : string)
| stderr_usage
| stderr_error (message : string).

(** How the command ends: [process.exit(code)], the end of [main], or an
    exception that leaves [main]. *)
Inductive ending : Type :=
| Exit (code : nat)
| Finished
| Rejected (message : string).

Record run_result : Type := mkResult {
  ended : ending;
  outputs : list cli_output;
  world_after : world
}.

(** The exit code of the process: that of [process.exit], and 0 otherwise. *)
Definition exit_code (r : run_result) : nat :=
  match ended r with
  | Exit code => code
  | _ => 0
  end.

(** The values [parseArgs] reads for [update-frontmatter]. *)
Record update_values : Type := {
  update : option string;
  set : option (list string);
  remove : option string;
  create : option bool
}.

(** The Node built-ins and the environment the commands use. *)
Class CliHost : Type := {
  (* [JSON.parse(text)] *)
  JSON_parse : string -> outcome jsval;
  (* [path.resolve(filePath)] *)
  path_resolve : string -> string;
  (* [parseArgs] with the options [update], [set] (multiple), [remove],
     [create]: the [values], or the error thrown *)
  parseArgs_update : list string -> outcome update_values;
  (* [parseArgs] with the option [create]: [values.create], or the error *)
  parseArgs_generate : list string -> outcome (option bool);
  (* [process.env.OPENAI_API_KEY] *)
  OPENAI_API_KEY : option string
}.

Section Commands.
Context {md : MarkdownLib} {yml : YamlLib} {host : Host} {cli_host : CliHost}.

(** [console.error('Error:', message); process.exit(1)] *)
Definition fail (message : string) (w : world) : run_result :=
  mkResult (Exit 1) [stderr_line ("Error: " +:+ message)] w.

(** [showUsage()] *)
Definition showUsage (before : list cli_output) (w : world) : run_result :=
  mkResult (Exit 1) (before ++ [stderr_usage]) w.

(** [handleExtractFrontmatter(args)] *)
Definition handleExtractFrontmatter (args : list string) (w : world) : run_result :=
  match args with
  | [] =>
      mkResult (Exit 1)
        [stderr_line "Error: File path is required for extract-frontmatter command"] w
  | filePath :: _ =>
      if String.eqb filePath "" then
        mkResult (Exit 1)
          [stderr_line "Error: File path is required for extract-frontmatter command"] w
      else
        let extractor :=
          {| Extractor.filePath := path_resolve filePath;
             Extractor.options := {| Extractor.fields := fields_option args |} |} in
        match Extractor.extract extractor w with
        | (Returned result, w') =>
            mkResult Finished
              [stdout_line
                 match result with
                 | Some v => if truthy v then JSON_stringify v else "No frontmatter found"
                 | None => "No frontmatter found"
                 end] w'
        | (Thrown msg, w') => fail msg w'
        end
  end.

(** [handleUpdateFrontmatter(args)] *)
Definition handleUpdateFrontmatter (args : list string) (w : world) : run_result :=
  match args with
  | [] =>
      mkResult (Exit 1)
        [stderr_line "Error: File path is required for update-frontmatter command"] w
  | filePath :: rest =>
      if String.eqb filePath "" then
        mkResult (Exit 1)
          [stderr_line "Error: File path is required for update-frontmatter command"] w
      else
        match parseArgs_update rest with
        | Thrown msg => mkResult (Rejected msg) [] w
        | Returned values =>
            let updater :=
              Updater.new_MarkdownFrontmatterUpdater (path_resolve filePath)
                (Some (default false (create values))) None in
            let report (message : string) (r : outcome unit * world) : run_result :=
              match r with
              | (Returned _, w') => mkResult Finished [stdout_line message] w'
              | (Thrown msg, w') => fail msg w'
              end in
            match update values, set values, remove values with
            | Some (String _ _ as text), _, _ =>
                match JSON_parse text with
                | Returned updateData =>
                    report "Frontmatter updated successfully"
                      (Updater.updateFields updater (own_props (Some updateData)) w)
                | Thrown msg => fail msg w
                end
            | _, Some ((_ :: _) as setArgs), _ =>
                let fieldUpdates := parse_set setArgs in
                if bool_decide (fieldUpdates = ∅) then mkResult Finished [] w
                else report "Fields updated successfully"
                       (Updater.updateFields updater fieldUpdates w)
            | _, _, Some (String _ _ as text) =>
                report "Fields removed successfully"
                  (Updater.removeFields updater (parse_list text) w)
            | _, _, _ =>
                mkResult (Exit 1)
                  [stderr_line
                     "Error: One of --update, --set, or --remove is required for update-frontmatter command"]
                  w
            end
        end
  end.

(** [new GenerativeTags(filePath, { createIfMissing })]: it throws without an
    API key. *)
Definition new_GenerativeTags (filePath : string) (createIfMissing : bool)
  : outcome GenerativeTags.GenerativeTags :=
  match OPENAI_API_KEY with
  | Some (String _ _) =>
      Returned
        {| GenerativeTags.filePath := path_resolve filePath;
           GenerativeTags.options :=
             {| GenerativeTags.createIfMissing := createIfMissing |} |}
  | _ => Thrown "OPENAI_API_KEY environment variable is required"
  end.

(** [handleGenerateTags(args)] *)
Definition handleGenerateTags (args : list string) (w : world) : run_result :=
  match args with
  | [] =>
      mkResult (Exit 1)
        [stderr_line "Error: File path is required for generate-tags command"] w
  | filePath :: rest =>
      if String.eqb filePath "" then
        mkResult (Exit 1)
          [stderr_line "Error: File path is required for generate-tags command"] w
      else
        match parseArgs_generate rest with
        | Thrown msg => mkResult (Rejected msg) [] w
        | Returned create =>
            match new_GenerativeTags filePath (default false create) with
            | Thrown msg => fail msg w
            | Returned generativeTags =>
                match GenerativeTags.run generativeTags w with
                | (Returned _, w') =>
                    mkResult Finished [stdout_line "Tags generated successfully"] w'
                | (Thrown msg, w') => fail msg w'
                end
            end
        end
  end.

(** [main()] on [process.argv.slice(2)] *)
Definition main (args : list string) (w : world) : run_result :=
  match args with
  | [] => showUsage [] w
  | command :: commandArgs =>
      if String.eqb command "extract-frontmatter" then
        handleExtractFrontmatter commandArgs w
      else if String.eqb command "update-frontmatter" then
        handleUpdateFrontmatter commandArgs w
      else if String.eqb command "generate-tags" then
        handleGenerateTags commandArgs w
      else if String.eqb command "help" || String.eqb command "--help"
              || String.eqb command "-h" then
        showUsage [] w
      else
        showUsage [stderr_line ("Error: Unknown command '" +:+ command +:+ "'")] w
  end.

(** [main().catch(console.error)]: an exception that leaves [main] is printed
    and the process ends normally. *)
Definition cli (args : list string) (w : world) : run_result :=
  let r := main args w in
  match ended r with
  | Rejected msg => mkResult Finished (outputs r ++ [stderr_error msg]) (world_after r)
  | _ => r
  end.

End Commands.

End Cli.


(** Stand-ins for the built-ins of the command line, on the argument lists
    of the examples. *)
Module CliFixture.

Definition dq : string := String (ascii_of_nat 34) EmptyString.

(** The JSON text [{"draft":false}]. *)
Definition draft_false : string :=
  "{" +:+ dq +:+ "draft" +:+ dq +:+ ":false}".

Definition parse_json (text : string) : outcome jsval :=
  if String.eqb text draft_false then Returned (JObj {[ "draft" := JBool false ]})
  else if String.eqb text "{}" then Returned (JObj ∅)
  else Thrown "Unexpected token in JSON".

Definition no_values : Cli.update_values :=
  {| Cli.update := None; Cli.set := None; Cli.remove := None; Cli.create := None |}.

Definition parse_update_args (args : list string) : outcome Cli.update_values :=
  if bool_decide (args = ["--update=" +:+ draft_false]) then
    Returned {| Cli.update := Some draft_false; Cli.set := None;
                Cli.remove := None; Cli.create := None |}
  else if bool_decide (args = ["--set"; "title"]) then
    Returned {| Cli.update := None; Cli.set := Some ["title"];
                Cli.remove := None; Cli.create := None |}
  else if bool_decide (args = []) then Returned no_values
  else Thrown "Unknown option".

Definition parse_generate_args (args : list string) : outcome (option bool) :=
  if bool_decide (args = ["--create"]) then Returned (Some true)
  else if bool_decide (args = []) then Returned None
  else Thrown "Unknown option".

#[export] Instance cli_host : Cli.CliHost :=
  {| Cli.JSON_parse := parse_json;
     Cli.path_resolve := fun p => p;
     Cli.parseArgs_update := parse_update_args;
     Cli.parseArgs_generate := parse_generate_args;
     Cli.OPENAI_API_KEY := Some "test-key" |}.

(** A document whose metadata block holds text that is not YAML. *)
Definition with_broken_frontmatter : string :=
  "---" +:+ nl +:+ "title: [" +:+ nl +:+ "---" +:+ nl +:+ "# Post" +:+ nl.

Definition broken : world := Fixture.one_file Fixture.path with_broken_frontmatter.

Definition empty_world : world := mkWorld ∅ ∅ [] [] 0.

Definition single : GenerativeTags.GenerativeTags :=
  {| GenerativeTags.filePath := Fixture.path;
     GenerativeTags.options := {| GenerativeTags.createIfMissing := false |} |}.

End CliFixture.

(** The mdast packages for the documents of the examples, which are all of
    the fragment: nothing outside it is consulted. *)
Module MdastFixture.

Definition no_rest : Mdast.Rest :=
  {| Mdast.foreign := Empty_set;
     Mdast.fromMarkdown_rest := fun _ => [];
     Mdast.toMarkdown_rest := fun _ => "" |}.

Definition mdast : MarkdownLib := Mdast.lib no_rest.

End MdastFixture.

(** * Properties *)

(** ** The two loops over [ast.children] agree *)

Section Children.
Context {B : Type}.
Implicit Types (children : list (node B)).

Lemma find_frontmatter_spec children i :
  match find_frontmatter children i with
  | Some j =>
      exists k value, j = i + k /\ children !! k = Some (yaml value) /\
                      first_yaml children = Some value
  | None => first_yaml children = None
  end.
Proof.
  revert i. induction children as [|[value|b] rest IH]; intros i; simpl.
  - reflexivity.
  - exists 0, value. split; [lia | split; reflexivity].
  - specialize (IH (S i)). destruct (find_frontmatter rest (S i)) as [j|].
    + destruct IH as (k & value & -> & Hk & Hy).
      exists (S k), value. split; [lia | split; assumption].
    + exact IH.
Qed.

Lemma find_frontmatter_none children :
  first_yaml children = None -> find_frontmatter children 0 = None.
Proof.
  intros H. pose proof (find_frontmatter_spec children 0) as Hs.
  destruct (find_frontmatter children 0); [|reflexivity].
  destruct Hs as (? & ? & _ & _ & Hy). congruence.
Qed.

Lemma find_frontmatter_some children value :
  first_yaml children = Some value ->
  exists i, find_frontmatter children 0 = Some i /\ children !! i = Some (yaml value).
Proof.
  intros H. pose proof (find_frontmatter_spec children 0) as Hs.
  destruct (find_frontmatter children 0) as [j|]; [|congruence].
  destruct Hs as (k & v & -> & Hk & Hy). exists k. simpl.
  split; [reflexivity|]. congruence.
Qed.

End Children.

(** ** Object operations *)

Lemma spread2_lookup (m p : gmap string jsval) (k : string) :
  spread2 (Some (JObj m)) (Some (JObj p)) !! k =
  match p !! k with
  | Some v => Some v
  | None => m !! k
  end.
Proof.
  unfold spread2, CopyDataProperties. simpl.
  rewrite lookup_union, lookup_union, lookup_empty.
  destruct (p !! k), (m !! k); reflexivity.
Qed.

Lemma spread_null_lookup (p : gmap string jsval) (k : string) :
  spread2 None (Some (JObj p)) !! k = p !! k.
Proof.
  unfold spread2, CopyDataProperties. simpl.
  rewrite lookup_union, lookup_union, !lookup_empty.
  destruct (p !! k); reflexivity.
Qed.

Lemma delete_fields_lookup (fieldsToRemove : list string) (o : gmap string jsval)
    (k : string) :
  Updater.delete_fields fieldsToRemove o !! k =
  if bool_decide (k ∈ fieldsToRemove) then None else o !! k.
Proof.
  unfold Updater.delete_fields. revert o.
  induction fieldsToRemove as [|field rest IH]; intros o; simpl.
  - reflexivity.
  - rewrite IH. destruct (decide (k = field)) as [->|Hne].
    + rewrite lookup_delete_eq.
      rewrite (bool_decide_eq_true_2 _ (list_elem_of_here field rest)).
      destruct (bool_decide (field ∈ rest)); reflexivity.
    + rewrite lookup_delete_ne by congruence.
      rewrite (bool_decide_ext (k ∈ field :: rest) (k ∈ rest)); [reflexivity|].
      rewrite elem_of_cons. tauto.
Qed.

(** ** MarkdownFrontmatterUpdater *)

Section UpdaterProperties.
Context {md : MarkdownLib} {yml : YamlLib}.
Import Updater.
Implicit Types (this : MarkdownFrontmatterUpdater) (w : world).

Lemma updateFrontmatterInContent_present this content value newFrontmatter :
  first_yaml (fromMarkdown content) = Some value ->
  exists i,
    find_frontmatter (fromMarkdown content) 0 = Some i /\
    fromMarkdown content !! i = Some (yaml value) /\
    updateFrontmatterInContent this content newFrontmatter =
      Returned (toMarkdown
        (<[i := yaml (encode_frontmatter newFrontmatter)]> (fromMarkdown content))).
Proof.
  intros Hy. destruct (find_frontmatter_some _ _ Hy) as (i & Hi & Hn).
  exists i. split; [assumption|]. split; [assumption|].
  unfold updateFrontmatterInContent. rewrite Hi. reflexivity.
Qed.

Lemma updateFrontmatterInContent_absent this content newFrontmatter :
  first_yaml (fromMarkdown content) = None ->
  updateFrontmatterInContent this content newFrontmatter =
    if createIfMissing (options this)
    then Returned (toMarkdown (yaml (encode_frontmatter newFrontmatter)
                               :: fromMarkdown content))
    else Thrown ("Failed to update frontmatter in content: " +:+ NoFrontmatterError).
Proof.
  intros Hy. unfold updateFrontmatterInContent.
  rewrite (find_frontmatter_none _ Hy).
  destruct (createIfMissing (options this)); reflexivity.
Qed.

Lemma extractExistingFrontmatter_absent content :
  first_yaml (fromMarkdown content) = None ->
  extractExistingFrontmatter content = Returned None.
Proof. intros Hy. unfold extractExistingFrontmatter. rewrite Hy. reflexivity. Qed.

Lemma extractExistingFrontmatter_present content value v :
  first_yaml (fromMarkdown content) = Some value ->
  parseYaml value = Returned v ->
  extractExistingFrontmatter content = Returned (Some (js_or v (JObj ∅))).
Proof.
  intros Hy Hp. unfold extractExistingFrontmatter. rewrite Hy, Hp. reflexivity.
Qed.

(** C4. On a document with no metadata block, [updateFrontmatter] and
    [updateFields] with [createIfMissing = false] throw the
    no-frontmatter error (wrapped with the operation and the path) and leave
    the world, hence the file and the trace of writes, as it was. *)
Theorem write_without_frontmatter_fails this updates w content :
  files w !! filePath this = Some content ->
  first_yaml (fromMarkdown content) = None ->
  createIfMissing (options this) = false ->
  updateFrontmatter this updates w =
    (Thrown (("Failed to update frontmatter in " +:+ filePath this +:+ ": ")
             +:+ ("Failed to update frontmatter in content: " +:+ NoFrontmatterError)),
     w)
  /\ updateFields this updates w =
    (Thrown (("Failed to update fields in " +:+ filePath this +:+ ": ")
             +:+ ("Failed to update frontmatter in content: " +:+ NoFrontmatterError)),
     w).
Proof.
  intros Hfile Hy Hc. split.
  - unfold updateFrontmatter, wrap_errors, try_catch, bind, readFile, lift, throw.
    rewrite Hfile, (updateFrontmatterInContent_absent _ _ _ Hy), Hc.
    reflexivity.
  - unfold updateFields, wrap_errors, try_catch, bind, readFile, lift, throw.
    rewrite Hfile, (extractExistingFrontmatter_absent _ Hy).
    rewrite (updateFrontmatterInContent_absent _ _ _ Hy), Hc.
    reflexivity.
Qed.

(** C5. On a document whose metadata mapping is [m], [updateFields p]
    succeeds and writes the document with its metadata replaced by the
    encoding of a mapping [merged] that is the shallow merge of [p] over [m]:
    a key of [p] has [p]'s value, whether or not [m] has it, and every other
    key has what [m] gives it. *)
Theorem updateFields_merges this p w content value m :
  files w !! filePath this = Some content ->
  first_yaml (fromMarkdown content) = Some value ->
  parseYaml value = Returned (JObj m) ->
  exists merged i,
    (forall k, merged !! k = match p !! k with Some v => Some v | None => m !! k end)
    /\ fromMarkdown content !! i = Some (yaml value)
    /\ updateFields this p w =
         (Returned tt,
          after_write w (filePath this) (with_frontmatter content i merged)).
Proof.
  intros Hfile Hy Hp.
  destruct (updateFrontmatterInContent_present this content value
              (JObj (spread2 (Some (JObj m)) (Some (JObj p)))) Hy)
    as (i & _ & Hi & Hupd).
  exists (spread2 (Some (JObj m)) (Some (JObj p))), i.
  split; [apply spread2_lookup|]. split; [exact Hi|].
  unfold updateFields, wrap_errors, try_catch, bind, readFile, lift, writeFile.
  rewrite Hfile, (extractExistingFrontmatter_present _ _ _ Hy Hp).
  unfold js_or. simpl truthy. cbv iota. rewrite Hupd. reflexivity.
Qed.

(** C6. [removeFields keys] on a document with no metadata block returns
    without error and leaves the world as it was (no write).  On a document
    whose metadata mapping is [m] it succeeds and writes the document with
    its metadata replaced by the encoding of [m] without the keys: a key of
    [keys] is absent, present in [m] or not, and every other key has what
    [m] gives it. *)
Theorem removeFields_reduces this keys w content :
  files w !! filePath this = Some content ->
  (first_yaml (fromMarkdown content) = None ->
   removeFields this keys w = (Returned tt, w))
  /\ (forall value m,
        first_yaml (fromMarkdown content) = Some value ->
        parseYaml value = Returned (JObj m) ->
        exists reduced i,
          (forall k, reduced !! k = if bool_decide (k ∈ keys) then None else m !! k)
          /\ fromMarkdown content !! i = Some (yaml value)
          /\ removeFields this keys w =
               (Returned tt,
                after_write w (filePath this) (with_frontmatter content i reduced))).
Proof.
  intros Hfile. split.
  - intros Hy.
    unfold removeFields, wrap_errors, try_catch, bind, readFile, lift.
    rewrite Hfile, (extractExistingFrontmatter_absent _ Hy). reflexivity.
  - intros value m Hy Hp.
    destruct (updateFrontmatterInContent_present this content value
                (JObj (delete_fields keys (CopyDataProperties ∅ (Some (JObj m))))) Hy)
      as (i & _ & Hi & Hupd).
    exists (delete_fields keys (CopyDataProperties ∅ (Some (JObj m)))), i.
    split; [|split; [exact Hi|]].
    + intros k. rewrite delete_fields_lookup.
      unfold CopyDataProperties. simpl. rewrite lookup_union, lookup_empty.
      destruct (m !! k); reflexivity.
    + unfold removeFields, wrap_errors, try_catch, bind, readFile, lift, writeFile.
      rewrite Hfile, (extractExistingFrontmatter_present _ _ _ Hy Hp).
      unfold js_or. simpl. rewrite Hupd. reflexivity.
Qed.

(** X5.  Whatever the markdown package, [updateFrontmatter] on a document
    with a [yaml] node hands the serializer the parsed tree with that one
    node's value replaced by the encoding of the new mapping: every other
    node, and the number of nodes, is as the parser gave it. *)
Theorem updateFrontmatter_touches_only_the_yaml_node this updates w content value :
  files w !! filePath this = Some content ->
  first_yaml (fromMarkdown content) = Some value ->
  exists i ast',
    fromMarkdown content !! i = Some (yaml value)
    /\ ast' !! i = Some (yaml (encode_frontmatter (JObj updates)))
    /\ (forall j, j <> i -> ast' !! j = fromMarkdown content !! j)
    /\ List.length ast' = List.length (fromMarkdown content)
    /\ updateFrontmatter this updates w =
         (Returned tt, after_write w (filePath this) (toMarkdown ast')).
Proof.
  intros Hfile Hy.
  destruct (updateFrontmatterInContent_present this content value (JObj updates) Hy)
    as (i & _ & Hi & Hupd).
  exists i, (<[i := yaml (encode_frontmatter (JObj updates))]> (fromMarkdown content)).
  split; [exact Hi|]. split; [|split; [|split]].
  - apply list_lookup_insert_eq. eapply lookup_lt_Some. exact Hi.
  - intros j Hj. apply list_lookup_insert_ne. congruence.
  - apply length_insert.
  - unfold updateFrontmatter, wrap_errors, try_catch, bind, readFile, lift, writeFile.
    rewrite Hfile, Hupd. reflexivity.
Qed.

(** X6.  Whatever the markdown package, [updateFrontmatter] with
    [createIfMissing = true] on a document without a [yaml] node hands the
    serializer the parsed tree with a new [yaml] node in front of it. *)
Theorem updateFrontmatter_prepends_a_yaml_node this updates w content :
  files w !! filePath this = Some content ->
  first_yaml (fromMarkdown content) = None ->
  createIfMissing (options this) = true ->
  updateFrontmatter this updates w =
    (Returned tt,
     after_write w (filePath this)
       (toMarkdown (yaml (encode_frontmatter (JObj updates)) :: fromMarkdown content))).
Proof.
  intros Hfile Hy Hc.
  unfold updateFrontmatter, wrap_errors, try_catch, bind, readFile, lift, writeFile.
  rewrite Hfile, (updateFrontmatterInContent_absent _ _ _ Hy), Hc. reflexivity.
Qed.

End UpdaterProperties.

(** ** MarkdownFrontmatterExtractor *)

Lemma js_or_truthy (v : jsval) : truthy (js_or v (JObj ∅)) = true.
Proof. unfold js_or. destruct (truthy v) eqn:E; [exact E | reflexivity]. Qed.

Lemma js_or_falsy (v : jsval) : truthy v = false -> js_or v (JObj ∅) = JObj ∅.
Proof. intros E. unfold js_or. rewrite E. reflexivity. Qed.

Section ExtractorProperties.
Context {md : MarkdownLib} {yml : YamlLib}.
Import Extractor.
Implicit Types (this : MarkdownFrontmatterExtractor) (w : world).

Lemma parseFrontmatter_absent content :
  first_yaml (fromMarkdown content) = None ->
  parseFrontmatter content = Returned None.
Proof. intros Hy. unfold parseFrontmatter. rewrite Hy. reflexivity. Qed.

Lemma parseFrontmatter_present content value v :
  first_yaml (fromMarkdown content) = Some value ->
  parseYaml value = Returned v ->
  parseFrontmatter content = Returned (Some (js_or v (JObj ∅))).
Proof. intros Hy Hp. unfold parseFrontmatter. rewrite Hy, Hp. reflexivity. Qed.

(** With a [yaml] node, [extract] never returns [null]: it returns a value
    or throws. *)
Lemma extract_present_not_null this w content value r w' :
  files w !! filePath this = Some content ->
  first_yaml (fromMarkdown content) = Some value ->
  extract this w = (r, w') ->
  r <> Returned None.
Proof.
  intros Hfile Hy.
  unfold extract, wrap_errors, try_catch, bind, readFile, lift, ret, throw.
  rewrite Hfile. unfold parseFrontmatter. rewrite Hy.
  destruct (parseYaml value) as [v|msg]; simpl.
  - rewrite (js_or_truthy v). simpl.
    destruct (fields (options this)) as [[|f fs]|]; simpl;
      try (intros [= <- _]; discriminate).
    destruct (filterFields _ _); simpl; intros [= <- _]; discriminate.
  - intros [= <- _]. discriminate.
Qed.

(** C7. For a readable document, [extract] returns [null] when the document
    has no metadata block, returns the mapping when the block holds one (and
    no field filter is set), and returns [null] in no other case: [null]
    means that no metadata block was found. *)
Theorem extract_null_iff_no_frontmatter this w content :
  files w !! filePath this = Some content ->
  (first_yaml (fromMarkdown content) = None -> extract this w = (Returned None, w))
  /\ (forall value m,
        first_yaml (fromMarkdown content) = Some value ->
        parseYaml value = Returned (JObj m) ->
        fields (options this) = None ->
        extract this w = (Returned (Some (JObj m)), w))
  /\ (forall w', extract this w = (Returned None, w') ->
                 first_yaml (fromMarkdown content) = None).
Proof.
  intros Hfile. split; [|split].
  - intros Hy.
    unfold extract, wrap_errors, try_catch, bind, readFile, lift, ret.
    rewrite Hfile, (parseFrontmatter_absent _ Hy). reflexivity.
  - intros value m Hy Hp Hf.
    unfold extract, wrap_errors, try_catch, bind, readFile, lift, ret.
    rewrite Hfile, (parseFrontmatter_present _ _ _ Hy Hp), Hf. reflexivity.
  - intros w' He.
    destruct (first_yaml (fromMarkdown content)) as [value|] eqn:Hy; [|reflexivity].
    exfalso. exact (extract_present_not_null _ _ _ _ _ _ Hfile Hy He eq_refl).
Qed.

End ExtractorProperties.

(** C10. When the metadata block holds YAML text that parses to a falsy
    value ([null], [false], [0], the empty string, NaN), the Extractor's
    unfiltered [extract] and the Updater's [getCurrentFrontmatter] both
    return the empty mapping: not that value, not [null], not an error. *)
Theorem falsy_yaml_reads_as_empty_mapping {md : MarkdownLib} {yml : YamlLib}
    (extractor : Extractor.MarkdownFrontmatterExtractor)
    (updater : Updater.MarkdownFrontmatterUpdater)
    (w : world) (content value : string) (v : jsval) :
  files w !! Extractor.filePath extractor = Some content ->
  files w !! Updater.filePath updater = Some content ->
  first_yaml (fromMarkdown content) = Some value ->
  parseYaml value = Returned v ->
  truthy v = false ->
  Extractor.fields (Extractor.options extractor) = None ->
  Extractor.extract extractor w = (Returned (Some (JObj ∅)), w)
  /\ Updater.getCurrentFrontmatter updater w = (Returned (Some (JObj ∅)), w).
Proof.
  intros Hfe Hfu Hy Hp Hv Hf. split.
  - unfold Extractor.extract, wrap_errors, try_catch, bind, readFile, lift, ret.
    rewrite Hfe, (parseFrontmatter_present _ _ _ Hy Hp), (js_or_falsy _ Hv), Hf.
    reflexivity.
  - unfold Updater.getCurrentFrontmatter, wrap_errors, try_catch, bind, readFile, lift.
    rewrite Hfu, (extractExistingFrontmatter_present _ _ _ Hy Hp).
    rewrite (js_or_falsy _ Hv). reflexivity.
Qed.

(** [filterFields] on a plain object, key by key: a requested key that the
    object has, own or inherited, is copied, except ["__proto__"]. *)
Lemma filter_loop_lookup (m : gmap string jsval) (fs : list string)
    (filtered : gmap string jsval) :
  exists r,
    Extractor.filter_loop (JObj m) fs filtered = Returned r /\
    forall k,
      r !! k =
      if bool_decide (k ∈ fs) && js_in k m && negb (bool_decide (k = "__proto__"))
      then Some (js_get m k) else filtered !! k.
Proof.
  revert filtered. induction fs as [|f fs IH]; intros filtered; simpl.
  - exists filtered. split; [reflexivity|]. intros k. reflexivity.
  - destruct (js_in f m) eqn:Hin.
    + destruct (IH (js_set filtered f (js_get m f))) as (r & Hr & Hl).
      exists r. split; [exact Hr|]. intros k. rewrite Hl.
      rewrite (bool_decide_ext (k ∈ f :: fs) (k = f \/ k ∈ fs)) by apply elem_of_cons.
      destruct (decide (k = f)) as [->|Hne].
      * rewrite (bool_decide_eq_true_2 (f = f \/ f ∈ fs)) by (left; reflexivity).
        rewrite Hin. simpl. unfold js_set.
        destruct (bool_decide (f ∈ fs)); simpl;
          destruct (bool_decide (f = "__proto__")); simpl; try reflexivity.
        apply lookup_insert_eq.
      * rewrite (bool_decide_ext (k = f \/ k ∈ fs) (k ∈ fs)) by tauto.
        destruct (bool_decide (k ∈ fs) && js_in k m
                  && negb (bool_decide (k = "__proto__"))); [reflexivity|].
        unfold js_set. destruct (bool_decide (f = "__proto__")); [reflexivity|].
        apply lookup_insert_ne. congruence.
    + destruct (IH filtered) as (r & Hr & Hl).
      exists r. split; [exact Hr|]. intros k. rewrite Hl.
      rewrite (bool_decide_ext (k ∈ f :: fs) (k = f \/ k ∈ fs)) by apply elem_of_cons.
      destruct (decide (k = f)) as [->|Hne].
      * rewrite Hin. rewrite !andb_false_r. reflexivity.
      * rewrite (bool_decide_ext (k = f \/ k ∈ fs) (k ∈ fs)) by tauto.
        reflexivity.
Qed.

(** X2.  Where the code and the specification agree: when no requested
    field is a property name of [Object.prototype], [filterFields] returns
    exactly the entries of the mapping whose key was requested. *)
Theorem filterFields_own_keys (m : gmap string jsval) (fs : list string) :
  Forall (fun f => f ∉ Object_prototype_keys) fs ->
  Extractor.filterFields (JObj m) fs = Returned (fields_spec m fs).
Proof.
  intros Hfs. unfold Extractor.filterFields.
  destruct (filter_loop_lookup m fs ∅) as (r & -> & Hl).
  f_equal. apply map_eq. intros k. rewrite Hl, lookup_empty.
  unfold fields_spec.
  destruct (decide (k ∈ fs)) as [Hk|Hk].
  - rewrite (bool_decide_eq_true_2 _ Hk). simpl.
    rewrite Forall_forall in Hfs. specialize (Hfs k Hk).
    unfold js_in, js_get.
    rewrite (bool_decide_eq_false_2 _ Hfs), orb_false_r.
    assert (k <> "__proto__") as Hp.
    { intros ->. apply Hfs. unfold Object_prototype_keys. set_solver. }
    rewrite (bool_decide_eq_false_2 _ Hp). simpl.
    destruct (m !! k) as [v|] eqn:Hm.
    + rewrite (bool_decide_eq_true_2 (is_Some (Some v))) by eauto. simpl.
      symmetry. apply map_lookup_filter_Some. split; [exact Hm | exact Hk].
    + rewrite (bool_decide_eq_false_2 (is_Some None)) by (intros [? [=]]). simpl.
      symmetry. apply map_lookup_filter_None. left. exact Hm.
  - rewrite (bool_decide_eq_false_2 _ Hk). simpl.
    symmetry. apply map_lookup_filter_None. right. intros v _. exact Hk.
Qed.

(** C8 (the code departs from the claim).  On the metadata mapping
    [{ title: "T" }] and the requested field ["toString"], which the mapping
    does not have, [filterFields] (and [extract] through it) returns a
    mapping with the key ["toString"], copied from [Object.prototype] by the
    [in] test, where the specification's projection is empty. *)
Theorem filterFields_copies_inherited_property :
  Extractor.filterFields (JObj {[ "title" := JStr "T" ]}) ["toString"]
    = Returned {[ "toString" := JBuiltin "toString" ]}
  /\ fields_spec {[ "title" := JStr "T" ]} ["toString"] = ∅
  /\ Extractor.extract (md := FenceCodec.codec) (yml := Fixture.yaml_lib)
       (Fixture.extractor (Some ["toString"]))
       (Fixture.one_file Fixture.path Fixture.with_frontmatter)
     = (Returned (Some (JObj {[ "toString" := JBuiltin "toString" ]})),
        Fixture.one_file Fixture.path Fixture.with_frontmatter).
Proof. repeat split; vm_compute; reflexivity. Qed.

(** ** GenerativeTags: glob matching *)

(** C2 (the code departs from the claim).  For the pattern [a+.md] the code
    builds the regular expression [^a+\.md$], in which [+] is a quantifier:
    the file name [a+.md], which the pattern matches literally, is rejected,
    and the file name [aa.md], which it does not match, is accepted. *)
Theorem matchesGlob_plus_is_a_quantifier (host : Host) :
  GenerativeTags.matchesGlob "a+.md" "a+.md" = Returned false
  /\ glob_spec "a+.md" "a+.md" = true
  /\ GenerativeTags.matchesGlob "aa.md" "a+.md" = Returned true
  /\ glob_spec "a+.md" "aa.md" = false.
Proof. repeat split; vm_compute; reflexivity. Qed.

Section GlobAgreement.
Import RegExp.

Lemma append_cons c s t : String c s +:+ t = String c (s +:+ t).
Proof. reflexivity. Qed.

Lemma append_assoc (a b c : string) : (a +:+ b) +:+ c = a +:+ (b +:+ c).
Proof.
  induction a as [|x a IH]; [reflexivity|].
  rewrite !append_cons, IH. reflexivity.
Qed.

Lemma replace_all_app c r s t :
  replace_all c r (s +:+ t) = replace_all c r s +:+ replace_all c r t.
Proof.
  induction s as [|x s IH]; [reflexivity|].
  rewrite append_cons. cbn [replace_all]. rewrite IH.
  destruct (Ascii.eqb x c); [|reflexivity].
  symmetry. apply append_assoc.
Qed.

Lemma glob_source_spec pattern :
  replace_all "?" "." (replace_all "*" ".*" (replace_all "." "\." pattern))
  = glob_source pattern.
Proof.
  induction pattern as [|c rest IH]; [reflexivity|].
  cbn [replace_all glob_source]. unfold glob_char_source.
  destruct (Ascii.eqb_spec c ".") as [->|Hdot].
  - rewrite !replace_all_app, IH. reflexivity.
  - cbn [replace_all]. destruct (Ascii.eqb_spec c "*") as [->|Hstar].
    + rewrite !replace_all_app, IH. reflexivity.
    + cbn [replace_all]. destruct (Ascii.eqb_spec c "?") as [->|Hq].
      * rewrite IH. reflexivity.
      * rewrite IH. reflexivity.
Qed.

Lemma plain_char c :
  is_syntax_char c = false ->
  Ascii.eqb c "\" = false /\ Ascii.eqb c "^" = false /\ Ascii.eqb c "$" = false
  /\ Ascii.eqb c "." = false /\ Ascii.eqb c "*" = false /\ Ascii.eqb c "+" = false
  /\ Ascii.eqb c "?" = false.
Proof.
  unfold is_syntax_char. intros H. apply bool_decide_eq_false in H.
  repeat split; apply Ascii.eqb_neq; intros ->; apply H; vm_compute;
    repeat first [apply list_elem_of_here | apply list_elem_of_further].
Qed.

Lemma flush_backslash l acc :
  flush (from_option Pending Nothing
           (match l with Pending a => Some a | _ => None end)) acc = flush l acc.
Proof. destruct l; reflexivity. Qed.

Lemma parse_glob_source pattern l acc :
  string_forallb glob_safe_char pattern = true ->
  not_backslash l ->
  parse_from (glob_source pattern +:+ "$") l acc =
  Pattern (rev (flush l acc) ++ glob_terms pattern ++ [AssertEnd]).
Proof.
  revert l acc. induction pattern as [|c rest IH]; intros l acc Hsafe Hl.
  - destruct l; try contradiction; simpl; reflexivity.
  - cbn [string_forallb] in Hsafe. apply andb_true_iff in Hsafe as [Hc Hrest].
    cbn [glob_source glob_terms]. unfold glob_char_source, glob_term.
    destruct (Ascii.eqb_spec c ".") as [->|Hdot].
    + rewrite !append_cons. cbn [parse_from].
      destruct l; try contradiction; cbn; rewrite IH by (assumption || exact I);
        cbn; rewrite <- ?app_assoc; reflexivity.
    + destruct (Ascii.eqb_spec c "*") as [->|Hstar].
      * rewrite !append_cons.
        destruct l; try contradiction; cbn; rewrite IH by (assumption || exact I);
          cbn; rewrite <- ?app_assoc; reflexivity.
      * destruct (Ascii.eqb_spec c "?") as [->|Hq].
        -- rewrite !append_cons.
           destruct l; try contradiction; cbn; rewrite IH by (assumption || exact I);
             cbn; rewrite <- ?app_assoc; reflexivity.
        -- assert (is_syntax_char c = false) as Hplain.
           { unfold glob_safe_char in Hc.
             apply Ascii.eqb_neq in Hdot, Hstar, Hq. rewrite Hdot, Hstar, Hq in Hc.
             simpl in Hc. apply negb_true_iff in Hc. exact Hc. }
           destruct (plain_char c Hplain) as (H1 & H2 & H3 & H4 & H5 & H6 & H7).
           rewrite !append_cons. change ("" +:+ ?x) with x.
           destruct l; try contradiction; cbn [parse_from];
             rewrite H1, H2, H3, H4, H5, H6, H7; cbn [orb]; rewrite Hplain;
             (rewrite IH by (assumption || exact I));
             cbn; rewrite <- ?app_assoc; reflexivity.
Qed.

Lemma search_anchored_later r s : search (AssertStart :: r) false s = false.
Proof. induction s as [|c s IH]; [reflexivity|]. cbn. exact IH. Qed.

Lemma search_anchored r s : search (AssertStart :: r) true s = matches r true s.
Proof.
  destruct s as [|c s]; cbn.
  - apply orb_false_r.
  - rewrite search_anchored_later. apply orb_false_r.
Qed.

Lemma matches_glob_terms pattern b s :
  string_forallb no_line_terminator s = true ->
  matches (glob_terms pattern ++ [AssertEnd]) b s = glob_spec pattern s.
Proof.
  revert b s. induction pattern as [|p rest IH]; intros b s Hs.
  - destruct s; reflexivity.
  - cbn [glob_terms glob_spec]. unfold glob_term.
    destruct (Ascii.eqb p "*") eqn:Hstar.
    + revert b Hs. induction s as [|c s IHs]; intros b Hs.
      * cbn. rewrite IH by reflexivity. reflexivity.
      * cbn [string_forallb] in Hs. apply andb_true_iff in Hs as [Hc Hs'].
        cbn [app matches]. rewrite IH by (cbn [string_forallb]; rewrite Hc, Hs'; reflexivity).
        cbn [atom_matches]. unfold no_line_terminator in Hc. rewrite Hc. cbn [andb].
        f_equal. apply (IHs false Hs').
    + destruct (Ascii.eqb p "?") eqn:Hq.
      * destruct s as [|c s]; [reflexivity|].
        cbn [string_forallb] in Hs. apply andb_true_iff in Hs as [Hc Hs'].
        cbn [app matches atom_matches]. unfold no_line_terminator in Hc.
        rewrite Hc. cbn [andb]. apply IH. exact Hs'.
      * destruct s as [|c s]; [reflexivity|].
        cbn [string_forallb] in Hs. apply andb_true_iff in Hs as [Hc Hs'].
        cbn [app matches atom_matches]. f_equal. apply IH. exact Hs'.
Qed.

(** X1.  Where the code and the specification agree: on a pattern made of [*],
    [?], [.] and characters that are not syntax characters of regular
    expressions, and a file name without line terminators, [matchesGlob]
    accepts the file name exactly when the glob pattern matches it. *)
Theorem matchesGlob_agrees_on_plain_patterns (host : Host) (filename pattern : string) :
  string_forallb glob_safe_char pattern = true ->
  string_forallb no_line_terminator filename = true ->
  GenerativeTags.matchesGlob filename pattern = Returned (glob_spec pattern filename).
Proof.
  intros Hp Hf. unfold GenerativeTags.matchesGlob, test, parse.
  rewrite glob_source_spec.
  change ("^" +:+ glob_source pattern +:+ "$")
    with (String "^" (glob_source pattern +:+ "$")).
  cbn [parse_from]. cbn.
  rewrite (parse_glob_source pattern Nothing [AssertStart] Hp I).
  cbn [flush rev app]. rewrite search_anchored.
  f_equal. apply matches_glob_terms. exact Hf.
Qed.

End GlobAgreement.

Lemma append_empty_r (s : string) : s +:+ "" = s.
Proof.
  induction s as [|c s IH]; [reflexivity|].
  change (String c (s +:+ "") = String c s). f_equal. exact IH.
Qed.

(** ** The updater over the mdast packages *)

Section MdastProperties.
Context {rest : Mdast.Rest}.
Import Mdast.

Lemma read_blocks_plain (ls : list string) (bs : list (mblock foreign)) :
  read_blocks ls = Some bs -> plain_tree (other <$> bs) = true.
Proof.
  unfold read_blocks. destruct (blocks_of (chunks ls [])) as [bs'|]; [|discriminate].
  destruct (plain_tree (other <$> bs')) eqn:Hp; [|discriminate].
  intros [= <-]. exact Hp.
Qed.

Lemma read_plain (content : string) frontmatter (bs : list (mblock foreign)) :
  read content = Some (frontmatter, bs) -> plain_tree (other <$> bs) = true.
Proof.
  unfold read. destruct (string_forallb document_char content); [|discriminate].
  destruct (FenceCodec.split_lines content) as [|first ls]; [discriminate|].
  destruct (String.eqb first "---").
  - destruct (FenceCodec.break_at_fence ls) as [[before after]|]; [|discriminate].
    destruct (forallb _ before); [|discriminate].
    destruct (read_blocks after) as [bs'|] eqn:Hr; [|discriminate].
    intros [= _ <-]. exact (read_blocks_plain _ _ Hr).
  - destruct (read_blocks (first :: ls)) as [bs'|] eqn:Hr; [|discriminate].
    intros [= _ <-]. exact (read_blocks_plain _ _ Hr).
Qed.

(** A [yaml] node in front keeps a tree in the fragment. *)
Lemma plain_tree_yaml (value : string) (tree : list (node (mblock foreign))) :
  plain_tree (yaml value :: tree) = plain_tree tree.
Proof. unfold plain_tree. destruct tree; reflexivity. Qed.

Lemma first_yaml_others (bs : list (mblock foreign)) :
  first_yaml (other <$> bs) = None.
Proof. induction bs as [|b bs IH]; [reflexivity | exact IH]. Qed.

Lemma render_others (bs : list (mblock foreign)) :
  render_node <$> (other <$> bs) = render_block <$> bs.
Proof. induction bs as [|b bs IH]; [reflexivity|]. cbn. rewrite IH. reflexivity. Qed.

(** The text of a tree that starts with a [yaml] node: the fences around
    its value, and then the content blocks. *)
Lemma to_text_yaml (value : string) (bs : list (mblock foreign)) :
  to_text (yaml value :: (other <$> bs)) = fenced value +:+ following bs.
Proof.
  unfold to_text, following. cbn [fmap list_fmap render_node].
  change (list_fmap _ _ render_node (other <$> bs)) with (render_node <$> (other <$> bs)).
  rewrite render_others.
  destruct bs as [|b bs]; [reflexivity|].
  change (render_block <$> b :: bs) with (render_block b :: (render_block <$> bs)).
  set (parts := render_block b :: (render_block <$> bs)).
  change (join_blocks (fenced value :: parts))
    with (fenced value +:+ nl +:+ nl +:+ join_blocks parts).
  rewrite !append_assoc. reflexivity.
Qed.

Lemma to_text_others (bs : list (mblock foreign)) :
  to_text (other <$> bs) =
    match bs with
    | [] => ""
    | _ => join_blocks (render_block <$> bs) +:+ nl
    end.
Proof.
  destruct bs as [|b bs]; [reflexivity|].
  unfold to_text. rewrite render_others. reflexivity.
Qed.

End MdastProperties.

Section MdastUpdates.
Context {rest : Mdast.Rest} {yml : YamlLib}.
Import Updater.
Implicit Types (this : MarkdownFrontmatterUpdater) (w : world).

(** A document of the fragment is read as its metadata node and its content
    blocks, and written back in the serializer's form. *)
Lemma mdast_round_trip (content : string) frontmatter
    (blocks : list (Mdast.mblock Mdast.foreign)) :
  Mdast.read content = Some (frontmatter, blocks) ->
  fromMarkdown (MarkdownLib := Mdast.lib rest) content = Mdast.tree_of frontmatter blocks
  /\ toMarkdown (MarkdownLib := Mdast.lib rest)
       (fromMarkdown (MarkdownLib := Mdast.lib rest) content) =
     Mdast.to_text (Mdast.tree_of frontmatter blocks).
Proof.
  intros Hread. cbn [block fromMarkdown toMarkdown Mdast.lib]. rewrite Hread.
  split; [reflexivity|].
  destruct frontmatter as [value|]; cbn [Mdast.tree_of];
    rewrite ?plain_tree_yaml, (read_plain _ _ _ Hread); reflexivity.
Qed.



End MdastUpdates.

(** ** GenerativeTags: batch processing *)

Section Frame.
Context {A B X : Type} (f : world -> X).

Lemma keeps_ret (a : A) : keeps f (ret a).
Proof. intros w. reflexivity. Qed.

Lemma keeps_throw (msg : string) : keeps f (@throw A msg).
Proof. intros w. reflexivity. Qed.

Lemma keeps_lift (o : outcome A) : keeps f (lift o).
Proof. intros w. reflexivity. Qed.

Lemma keeps_readFile (path : string) : keeps f (readFile path).
Proof. intros w. unfold readFile. destruct (files w !! path); reflexivity. Qed.

Lemma keeps_bind (m : io A) (k : A -> io B) :
  keeps f m -> (forall a, keeps f (k a)) -> keeps f (bind m k).
Proof.
  intros Hm Hk w. unfold bind. specialize (Hm w).
  destruct (m w) as [[a|msg] w1]; simpl in *.
  - rewrite Hk. exact Hm.
  - exact Hm.
Qed.

Lemma keeps_try_catch (m : io A) (h : string -> io A) :
  keeps f m -> (forall msg, keeps f (h msg)) -> keeps f (try_catch m h).
Proof.
  intros Hm Hh w. unfold try_catch. specialize (Hm w).
  destruct (m w) as [[a|msg] w1]; simpl in *.
  - exact Hm.
  - rewrite Hh. exact Hm.
Qed.

Lemma keeps_wrap_errors (prefix : string) (m : io A) :
  keeps f m -> keeps f (wrap_errors prefix m).
Proof.
  intros Hm. apply keeps_try_catch; [exact Hm|].
  intros msg. apply keeps_throw.
Qed.

End Frame.

Lemma keeps_console_writeFile (path content : string) :
  keeps console (writeFile path content).
Proof. intros w. reflexivity. Qed.

Ltac frame :=
  repeat first
    [ apply keeps_wrap_errors
    | apply keeps_bind; [|intros ?]
    | apply keeps_ret
    | apply keeps_throw
    | apply keeps_lift
    | apply keeps_readFile
    | apply keeps_console_writeFile
    | match goal with |- keeps _ (if ?b then _ else _) => destruct b end
    | match goal with |- keeps _ (match ?x with _ => _ end) => destruct x end ].

(** X4.  [extract] and [getCurrentFrontmatter] are read-only: whatever they
    return or throw, the world after them is the world before. *)
Theorem reads_leave_the_world_unchanged {md : MarkdownLib} {yml : YamlLib}
    (extractor : Extractor.MarkdownFrontmatterExtractor)
    (updater : Updater.MarkdownFrontmatterUpdater) (w : world) :
  (Extractor.extract extractor w).2 = w
  /\ (Updater.getCurrentFrontmatter updater w).2 = w.
Proof.
  split.
  - assert (keeps id (Extractor.extract extractor)) as H
      by (unfold Extractor.extract; frame).
    exact (H w).
  - assert (keeps id (Updater.getCurrentFrontmatter updater)) as H
      by (unfold Updater.getCurrentFrontmatter; frame).
    exact (H w).
Qed.

Section BatchProperties.
Context {md : MarkdownLib} {yml : YamlLib} {host : Host}.
Import GenerativeTags.
Implicit Types (this : GenerativeTags) (w : world).

Lemma keeps_console_extract e : keeps console (Extractor.extract e).
Proof. unfold Extractor.extract. frame. Qed.

Lemma keeps_console_updateFields u p : keeps console (Updater.updateFields u p).
Proof. unfold Updater.updateFields. frame. Qed.

Lemma keeps_console_updateFrontmatter u p :
  keeps console (Updater.updateFrontmatter u p).
Proof. unfold Updater.updateFrontmatter. frame. Qed.

Lemma keeps_console_generateTags fm : keeps console (generateTags fm).
Proof.
  unfold generateTags. frame. intros w. reflexivity.
Qed.

(** Every run of [processSingleFile] adds exactly one report to the console:
    the success report when it returns, the failure report when it throws. *)
Lemma processSingleFile_reports this file w :
  exists e,
    console (processSingleFile this file w).2 = console w ++ [e]
    /\ attempted_files [e] = [file].
Proof.
  unfold processSingleFile.
  set (body := bind (Extractor.extract _) _).
  assert (forall w0,
            match body w0 with
            | (Returned _, w1) =>
                exists tags, console w1 = console w0 ++ [log_generated file tags]
            | (Thrown _, w1) => console w1 = console w0
            end) as Hbody.
  { intros w0. unfold body, bind.
    pose proof (keeps_console_extract
                  (Extractor.new_MarkdownFrontmatterExtractor file) w0) as H1.
    destruct (Extractor.extract _ w0) as [[existing|msg] w1]; simpl in H1; [|exact H1].
    pose proof (keeps_console_generateTags existing w1) as H2.
    destruct (generateTags existing w1) as [[tags|msg] w2]; simpl in H2;
      [|congruence].
    set (upd := if negb (js_not existing) then _ else _).
    assert (keeps console upd) as Hupd.
    { unfold upd. destruct (negb (js_not existing));
        [apply keeps_console_updateFields|].
      destruct (createIfMissing (options this));
        [apply keeps_console_updateFrontmatter | apply keeps_throw]. }
    specialize (Hupd w2). destruct (upd w2) as [[[]|msg] w3]; simpl in Hupd.
    - exists tags. simpl. congruence.
    - congruence. }
  unfold try_catch. specialize (Hbody w).
  destruct (body w) as [[[]|msg] w1].
  - destruct Hbody as (tags & Hc). exists (log_generated file tags).
    split; [exact Hc | reflexivity].
  - exists (error_failed_to_process file msg). simpl.
    split; [congruence | reflexivity].
Qed.

Lemma attempted_files_app (xs ys : list console_event) :
  attempted_files (xs ++ ys) = attempted_files xs ++ attempted_files ys.
Proof. unfold attempted_files. apply omap_app. Qed.

(** The loop never throws, and the console reports one attempt per file, in
    the order of the list. *)
Lemma process_each_attempts_all this matching w :
  exists w' events,
    process_each this matching w = (Returned tt, w')
    /\ console w' = console w ++ events
    /\ attempted_files events = matching.
Proof.
  revert w. induction matching as [|file rest IH]; intros w; simpl.
  - exists w, []. rewrite app_nil_r. repeat split.
  - destruct (processSingleFile_reports this file w) as (e & He & Hfile).
    unfold bind at 1. unfold try_catch.
    destruct (processSingleFile this file w) as [[[]|msg] w1]; simpl in He.
    + destruct (IH w1) as (w' & events & Hrun & Hc & Ha).
      exists w', (e :: events). split; [exact Hrun|]. split.
      * rewrite Hc, He, <- app_assoc. reflexivity.
      * change (e :: events) with ([e] ++ events).
        rewrite attempted_files_app, Hfile, Ha. reflexivity.
    + unfold console_emit at 1.
      match goal with |- context [process_each this rest ?w2] =>
        destruct (IH w2) as (w' & events & Hrun & Hc & Ha) end.
      exists w', (e :: error_batch_failed file msg :: events).
      split; [exact Hrun|]. split.
      * rewrite Hc. simpl. rewrite He, <- !app_assoc. reflexivity.
      * change (e :: error_batch_failed file msg :: events)
          with ([e] ++ [error_batch_failed file msg] ++ events).
        rewrite !attempted_files_app, Hfile, Ha. reflexivity.
Qed.

(** The loop never throws, and it is one turn per file, in the order of the
    list, each from the world the turn before it left. *)
Lemma process_each_turns this matching w :
  process_each this matching w = (Returned tt, foldl (batch_turn this) w matching).
Proof.
  revert w. induction matching as [|file rest IH]; intros w; [reflexivity|].
  cbn [process_each foldl]. unfold bind at 1. unfold try_catch, batch_turn.
  destruct (processSingleFile this file w) as [[[]|msg] w1]; apply IH.
Qed.

(** C9.  In batch mode, when the files matching the pattern have been found,
    [processGlobPattern] returns without error whatever happens to each
    file.  Every matching file is processed, by [processSingleFile], in
    the order of the list and from the world that the files before it left,
    whether they failed or not: when the processing of a file throws, the
    failure is reported and the files after it are processed from the
    world that the failure left.  The console reports an attempt at every
    matching file, in order.  (Only a failure to list the directory fails
    the run.) *)
Theorem batch_failures_are_isolated this w :
  match findMatchingFiles this w with
  | (Returned matching, w1) =>
      exists w2 events,
        processGlobPattern this w = (Returned tt, w2)
        /\ console w2 = console w1 ++ events
        /\ attempted_files events = matching
        /\ (matching <> [] ->
            w2 = foldl (batch_turn this)
                   (after_console w1 (log_found_files (List.length matching)))
                   matching)
        /\ (forall before file after msg failed,
              matching = before ++ file :: after ->
              processSingleFile this file
                (foldl (batch_turn this)
                   (after_console w1 (log_found_files (List.length matching)))
                   before) = (Thrown msg, failed) ->
              w2 = foldl (batch_turn this)
                     (after_console failed (error_batch_failed file msg)) after)
  | (Thrown msg, w1) =>
      processGlobPattern this w =
        (Thrown ("Failed to process glob pattern: " +:+ msg), w1)
  end.
Proof.
  destruct (findMatchingFiles this w) as [[matching|msg] w1] eqn:Hfind.
  - destruct matching as [|file rest].
    + exists (mkWorld (files w1) (dirs w1) (written w1)
                      (console w1 ++ [log_no_files_found]) (ai_calls w1)),
             [log_no_files_found].
      unfold processGlobPattern, wrap_errors, try_catch, bind. rewrite Hfind.
      repeat split.
      * intros Hne. contradiction.
      * intros before file after msg failed Hm. destruct before; discriminate.
    + set (start := after_console w1 (log_found_files (List.length (file :: rest)))).
      destruct (process_each_attempts_all this (file :: rest) start)
        as (w' & events & Hrun & Hc & Ha).
      assert (w' = foldl (batch_turn this) start (file :: rest)) as Hturns.
      { pose proof (process_each_turns this (file :: rest) start) as Ht.
        rewrite Hrun in Ht. congruence. }
      exists w', (log_found_files (S (List.length rest)) :: events).
      split; [|split; [|split; [|split]]].
      * unfold processGlobPattern, wrap_errors, try_catch.
        unfold bind at 1. rewrite Hfind. cbn [List.length Nat.eqb].
        unfold bind at 1. unfold console_emit at 1.
        change (mkWorld (files w1) (dirs w1) (written w1)
                  (console w1 ++ [log_found_files (S (List.length rest))])
                  (ai_calls w1)) with start.
        rewrite Hrun. reflexivity.
      * rewrite Hc. simpl. rewrite <- app_assoc. reflexivity.
      * exact Ha.
      * intros _. exact Hturns.
      * intros before file' after msg failed Hm Hfail.
        rewrite Hturns, Hm, foldl_app. cbn [foldl].
        unfold batch_turn at 2. rewrite Hfail. reflexivity.
  - unfold processGlobPattern, wrap_errors, try_catch, bind. rewrite Hfind.
    reflexivity.
Qed.

(** X3.  Tag truncation: when [generateTags] returns, the AI service has
    answered this request (the one numbered [ai_calls w], with the prompt
    made from the frontmatter) with a non-empty list, and the result is the
    first three tags of that answer, hence between one and three tags;
    exactly one request was made and nothing else of the world changed. *)
Theorem generateTags_truncates (frontmatter : option jsval) w tags w' :
  generateTags frontmatter w = (Returned tags, w') ->
  (exists answer,
     generateObject (ai_calls w)
       match frontmatter with
       | Some v => if truthy v then JSON_stringify v else "No frontmatter available"
       | None => "No frontmatter available"
       end = Returned answer
     /\ tags = take 3 answer /\ answer <> [])
  /\ 0 < List.length tags <= 3
  /\ ai_calls w' = S (ai_calls w)
  /\ w' = after_ai_request w.
Proof.
  unfold generateTags, wrap_errors, try_catch, bind, ai_request, throw, ret.
  destruct (generateObject _ _) as [answer|msg]; [|discriminate].
  destruct answer as [|t answer]; [discriminate|].
  cbn [List.length Nat.eqb]. intros [= <- <-].
  split; [exists (t :: answer); split; [reflexivity | split; [reflexivity | discriminate]]|].
  split; [|split; reflexivity].
  pose proof (length_take (t :: answer) 3) as Hlen.
  cbn [List.length take] in *. lia.
Qed.

End BatchProperties.

(** * The theorems at concrete documents *)

Section Witnesses.
Import FenceCodec Fixture.

Lemma write_without_frontmatter_fails_witness :
  Updater.updateFrontmatter (updater false) {[ "title" := JStr "New" ]} plain =
    (Thrown ("Failed to update frontmatter in /blog/post.md: "
             +:+ "Failed to update frontmatter in content: "
             +:+ "No frontmatter found and createIfMissing is false"), plain)
  /\ Updater.updateFields (updater false) {[ "title" := JStr "New" ]} plain =
    (Thrown ("Failed to update fields in /blog/post.md: "
             +:+ "Failed to update frontmatter in content: "
             +:+ "No frontmatter found and createIfMissing is false"), plain).
Proof.
  exact (write_without_frontmatter_fails (updater false) {[ "title" := JStr "New" ]}
           plain without_frontmatter eq_refl eq_refl eq_refl).
Defined.

Lemma updateFields_merges_witness :
  exists merged i,
    (forall k, merged !! k =
               match ({[ "draft" := JBool false ]} : gmap string jsval) !! k with
               | Some v => Some v
               | None => ({[ "title" := JStr "T" ]} : gmap string jsval) !! k
               end)
    /\ fromMarkdown Fixture.with_frontmatter !! i = Some (yaml "title: T")
    /\ Updater.updateFields (updater false) {[ "draft" := JBool false ]} doc =
         (Returned tt,
          after_write doc path
            (Updater.with_frontmatter Fixture.with_frontmatter i merged)).
Proof.
  exact (updateFields_merges (updater false) {[ "draft" := JBool false ]} doc
           Fixture.with_frontmatter "title: T" {[ "title" := JStr "T" ]}
           eq_refl eq_refl eq_refl).
Defined.

Lemma removeFields_reduces_witness :
  Updater.removeFields (updater false) ["tags"; "draft"] plain = (Returned tt, plain)
  /\ exists reduced i,
       (forall k, reduced !! k =
                  if bool_decide (k ∈ ["tags"; "draft"]) then None
                  else ({[ "title" := JStr "T" ]} : gmap string jsval) !! k)
       /\ fromMarkdown Fixture.with_frontmatter !! i = Some (yaml "title: T")
       /\ Updater.removeFields (updater false) ["tags"; "draft"] doc =
            (Returned tt,
             after_write doc path
               (Updater.with_frontmatter Fixture.with_frontmatter i reduced)).
Proof.
  split.
  - exact (proj1 (removeFields_reduces (updater false) ["tags"; "draft"] plain
                    without_frontmatter eq_refl) eq_refl).
  - exact (proj2 (removeFields_reduces (updater false) ["tags"; "draft"] doc
                    Fixture.with_frontmatter eq_refl)
             "title: T" {[ "title" := JStr "T" ]} eq_refl eq_refl).
Defined.

Lemma extract_null_iff_no_frontmatter_witness :
  Extractor.extract (extractor None) plain = (Returned None, plain)
  /\ Extractor.extract (extractor None) doc =
       (Returned (Some (JObj {[ "title" := JStr "T" ]})), doc).
Proof.
  split.
  - exact (proj1 (extract_null_iff_no_frontmatter (extractor None) plain
                    without_frontmatter eq_refl) eq_refl).
  - exact (proj1 (proj2 (extract_null_iff_no_frontmatter (extractor None) doc
                           Fixture.with_frontmatter eq_refl))
             "title: T" {[ "title" := JStr "T" ]} eq_refl eq_refl eq_refl).
Defined.

Lemma falsy_yaml_reads_as_empty_mapping_witness :
  Extractor.extract (extractor None) (one_file path with_null_frontmatter) =
    (Returned (Some (JObj ∅)), one_file path with_null_frontmatter)
  /\ Updater.getCurrentFrontmatter (updater false) (one_file path with_null_frontmatter) =
    (Returned (Some (JObj ∅)), one_file path with_null_frontmatter).
Proof.
  exact (falsy_yaml_reads_as_empty_mapping (extractor None) (updater false)
           (one_file path with_null_frontmatter) with_null_frontmatter "null" JNull
           eq_refl eq_refl eq_refl eq_refl eq_refl eq_refl).
Defined.

Lemma updateFrontmatter_touches_only_the_yaml_node_witness :
  exists i ast',
    fromMarkdown Fixture.with_frontmatter !! i = Some (yaml "title: T")
    /\ ast' !! i = Some (yaml "title: New")
    /\ (forall j, j <> i -> ast' !! j = fromMarkdown Fixture.with_frontmatter !! j)
    /\ List.length ast' = List.length (fromMarkdown Fixture.with_frontmatter)
    /\ Updater.updateFrontmatter (updater false) {[ "title" := JStr "New" ]} doc =
         (Returned tt, after_write doc path (toMarkdown ast')).
Proof.
  exact (updateFrontmatter_touches_only_the_yaml_node (updater false)
           {[ "title" := JStr "New" ]} doc Fixture.with_frontmatter "title: T"
           eq_refl eq_refl).
Defined.

Lemma updateFrontmatter_prepends_a_yaml_node_witness :
  Updater.updateFrontmatter (updater true) {[ "title" := JStr "New" ]} plain =
    (Returned tt,
     after_write plain path
       (toMarkdown (yaml "title: New" :: fromMarkdown without_frontmatter))).
Proof.
  exact (updateFrontmatter_prepends_a_yaml_node (updater true)
           {[ "title" := JStr "New" ]} plain without_frontmatter
           eq_refl eq_refl eq_refl).
Defined.

Lemma generateTags_truncates_witness :
  (exists answer,
     flaky_ai 0 "No frontmatter available" = Returned answer
     /\ ["a"; "b"; "c"] = take 3 answer /\ answer <> [])
  /\ 0 < List.length ["a"; "b"; "c"] <= 3
  /\ ai_calls (GenerativeTags.generateTags None blog).2 = S (ai_calls blog)
  /\ (GenerativeTags.generateTags None blog).2 = after_ai_request blog.
Proof.
  exact (generateTags_truncates None blog ["a"; "b"; "c"]
           (GenerativeTags.generateTags None blog).2 eq_refl).
Defined.

Lemma matchesGlob_agrees_on_plain_patterns_witness :
  GenerativeTags.matchesGlob "post.md" "p?st.*" = Returned (glob_spec "p?st.*" "post.md").
Proof.
  exact (matchesGlob_agrees_on_plain_patterns fixture_host "post.md" "p?st.*"
           eq_refl eq_refl).
Defined.

Lemma filterFields_own_keys_witness :
  Extractor.filterFields (JObj {[ "title" := JStr "T"; "draft" := JBool true ]})
    ["title"; "author"]
  = Returned (fields_spec {[ "title" := JStr "T"; "draft" := JBool true ]}
                ["title"; "author"]).
Proof.
  apply filterFields_own_keys.
  exact (bool_decide_unpack
           (Forall (fun f => f ∉ Object_prototype_keys) ["title"; "author"]) I).
Defined.

(** Batch tolerance on three matching files, of which the second fails (the
    AI request for it is refused): the run returns, the first and the third
    file are rewritten with their tags, the second is reported and left
    alone. *)
Example batch_run_goes_past_a_failure :
  (GenerativeTags.run batch blog).1 = Returned tt
  /\ console (GenerativeTags.run batch blog).2 =
       [ log_found_files 3;
         log_generated "/blog/a.md" ["a"; "b"; "c"];
         error_failed_to_process "/blog/b.md"
           "Failed to generate tags with AI: service unavailable";
         error_batch_failed "/blog/b.md"
           "Failed to generate tags with AI: service unavailable";
         log_generated "/blog/c.md" ["a"; "b"; "c"] ]
  /\ (written (GenerativeTags.run batch blog).2).*1 = ["/blog/a.md"; "/blog/c.md"]
  /\ files (GenerativeTags.run batch blog).2 !! "/blog/b.md" = Some with_frontmatter.
Proof. repeat split; vm_compute; reflexivity. Qed.

End Witnesses.

(** * Errors, batches and the command line *)

Section UpdaterErrors.
Context {md : MarkdownLib} {yml : YamlLib}.
Import Updater.

Lemma writes_once_at_most {A} path (m : io A) :
  writes_once path m -> writes_at_most_once path m.
Proof.
  intros Hm w. specialize (Hm w). destruct (m w) as [[a|msg] w']; [|exact Hm].
  right. exact Hm.
Qed.

Lemma lift_then_write_once path (o : outcome string) :
  writes_once path (updatedContent <- lift o ;; writeFile path updatedContent).
Proof.
  intros w. unfold bind, lift, writeFile. destruct o as [c|msg].
  - exists c. reflexivity.
  - reflexivity.
Qed.

Lemma writes_once_wrap {A} path prefix (m : io A) :
  writes_once path m -> writes_once path (wrap_errors prefix m).
Proof.
  intros Hm w. specialize (Hm w). unfold wrap_errors, try_catch, throw.
  destruct (m w) as [[a|msg] w']; exact Hm.
Qed.

Lemma writes_once_read {A} path (k : string -> io A) :
  (forall content, writes_once path (k content)) ->
  writes_once path (content <- readFile path ;; k content).
Proof.
  intros Hk w. unfold bind, readFile.
  destruct (files w !! path) as [content|]; [apply Hk | reflexivity].
Qed.

Lemma writes_once_lift {A B} path (o : outcome A) (k : A -> io B) :
  (forall a, writes_once path (k a)) ->
  writes_once path (a <- lift o ;; k a).
Proof.
  intros Hk w. unfold bind, lift. destruct o as [a|msg]; [apply Hk | reflexivity].
Qed.

Lemma updateFrontmatter_writes_once this updates :
  writes_once (filePath this) (updateFrontmatter this updates).
Proof.
  unfold updateFrontmatter. apply writes_once_wrap, writes_once_read.
  intros content. apply lift_then_write_once.
Qed.

Lemma updateFields_writes_once this fieldUpdates :
  writes_once (filePath this) (updateFields this fieldUpdates).
Proof.
  unfold updateFields. apply writes_once_wrap, writes_once_read.
  intros content. apply writes_once_lift. intros existing.
  apply lift_then_write_once.
Qed.

Lemma removeFields_writes_at_most_once this fieldsToRemove :
  writes_at_most_once (filePath this) (removeFields this fieldsToRemove).
Proof.
  intros w. unfold removeFields, wrap_errors, try_catch, throw, bind, readFile, lift.
  destruct (files w !! filePath this) as [content|]; [|reflexivity].
  destruct (extractExistingFrontmatter content) as [existing|msg]; [|reflexivity].
  destruct (js_not existing); [left; reflexivity|].
  unfold ret, writeFile.
  destruct (updateFrontmatterInContent _ _ _) as [c|msg]; [|reflexivity].
  right. exists c. reflexivity.
Qed.

Lemma differ_only_at_refl path w : differ_only_at path w w.
Proof. repeat split. Qed.

Lemma writes_once_rewrites_only {A} path (m : io A) :
  writes_once path m -> rewrites_only path m.
Proof.
  intros Hm w. specialize (Hm w). destruct (m w) as [[a|msg] w']; [exact Hm|].
  subst w'. apply differ_only_at_refl.
Qed.

Lemma writes_at_most_once_rewrites_at_most {A} path (m : io A) :
  writes_at_most_once path m -> rewrites_at_most path m.
Proof.
  intros Hm w. specialize (Hm w). destruct (m w) as [[a|msg] w']; [exact Hm|].
  subst w'. apply differ_only_at_refl.
Qed.

(** X7.  The three writing operations touch their own file only.  When
    [updateFrontmatter] or [updateFields] returns, the world is the one
    before the call after exactly one write to the updater's path; when
    [removeFields] returns, after at most one.  When any of them throws,
    every other file, the directories, the console and the count of AI
    requests are what they were. *)
Theorem updater_rewrites_only_its_file this updates fieldUpdates fieldsToRemove :
  rewrites_only (filePath this) (updateFrontmatter this updates)
  /\ rewrites_only (filePath this) (updateFields this fieldUpdates)
  /\ rewrites_at_most (filePath this) (removeFields this fieldsToRemove).
Proof.
  split; [apply writes_once_rewrites_only, updateFrontmatter_writes_once|].
  split; [apply writes_once_rewrites_only, updateFields_writes_once|].
  apply writes_at_most_once_rewrites_at_most, removeFields_writes_at_most_once.
Qed.

End UpdaterErrors.

Section ReadErrors.
Context {md : MarkdownLib} {yml : YamlLib}.

(** X8.  On a missing file every operation of the Extractor and of the
    Updater throws the error of [fs.readFile], prefixed with the operation
    and the path, and leaves the world as it was. *)
Theorem operations_on_a_missing_file
    (extractor : Extractor.MarkdownFrontmatterExtractor)
    (updater : Updater.MarkdownFrontmatterUpdater)
    (updates : gmap string jsval) (fieldsToRemove : list string) (w : world) :
  files w !! Extractor.filePath extractor = None ->
  files w !! Updater.filePath updater = None ->
  Extractor.extract extractor w =
    (Thrown (("Failed to extract frontmatter from " +:+ Extractor.filePath extractor +:+ ": ")
             +:+ ENOENT_open (Extractor.filePath extractor)), w)
  /\ Updater.getCurrentFrontmatter updater w =
    (Thrown (("Failed to read frontmatter from " +:+ Updater.filePath updater +:+ ": ")
             +:+ ENOENT_open (Updater.filePath updater)), w)
  /\ Updater.updateFrontmatter updater updates w =
    (Thrown (("Failed to update frontmatter in " +:+ Updater.filePath updater +:+ ": ")
             +:+ ENOENT_open (Updater.filePath updater)), w)
  /\ Updater.updateFields updater updates w =
    (Thrown (("Failed to update fields in " +:+ Updater.filePath updater +:+ ": ")
             +:+ ENOENT_open (Updater.filePath updater)), w)
  /\ Updater.removeFields updater fieldsToRemove w =
    (Thrown (("Failed to remove fields from " +:+ Updater.filePath updater +:+ ": ")
             +:+ ENOENT_open (Updater.filePath updater)), w).
Proof.
  intros He Hu.
  unfold Extractor.extract, Updater.getCurrentFrontmatter, Updater.updateFrontmatter,
    Updater.updateFields, Updater.removeFields, wrap_errors, try_catch, bind,
    readFile, throw, ENOENT_open.
  rewrite He, Hu. repeat split.
Qed.

(** X9.  A metadata block that the YAML package cannot read is an error,
    never "no metadata": [extract], [getCurrentFrontmatter], [updateFields]
    and [removeFields] throw the parser's message, twice prefixed, and leave
    the world as it was.  [updateFrontmatter] does not read the old block:
    it still replaces the value of that [yaml] node. *)
Theorem malformed_yaml_is_an_error
    (extractor : Extractor.MarkdownFrontmatterExtractor)
    (updater : Updater.MarkdownFrontmatterUpdater)
    (fieldUpdates : gmap string jsval) (fieldsToRemove : list string)
    (w : world) (content value msg : string) :
  files w !! Extractor.filePath extractor = Some content ->
  files w !! Updater.filePath updater = Some content ->
  first_yaml (fromMarkdown content) = Some value ->
  parseYaml value = Thrown msg ->
  Extractor.extract extractor w =
    (Thrown (("Failed to extract frontmatter from " +:+ Extractor.filePath extractor +:+ ": ")
             +:+ ("Failed to parse frontmatter: " +:+ msg)), w)
  /\ Updater.getCurrentFrontmatter updater w =
    (Thrown (("Failed to read frontmatter from " +:+ Updater.filePath updater +:+ ": ")
             +:+ ("Failed to extract existing frontmatter: " +:+ msg)), w)
  /\ Updater.updateFields updater fieldUpdates w =
    (Thrown (("Failed to update fields in " +:+ Updater.filePath updater +:+ ": ")
             +:+ ("Failed to extract existing frontmatter: " +:+ msg)), w)
  /\ Updater.removeFields updater fieldsToRemove w =
    (Thrown (("Failed to remove fields from " +:+ Updater.filePath updater +:+ ": ")
             +:+ ("Failed to extract existing frontmatter: " +:+ msg)), w)
  /\ (forall updates, exists i,
        fromMarkdown content !! i = Some (yaml value)
        /\ Updater.updateFrontmatter updater updates w =
            (Returned tt,
             after_write w (Updater.filePath updater)
               (toMarkdown
                  (<[i := yaml (trim (stringifyYaml (JObj updates)))]>
                     (fromMarkdown content))))).
Proof.
  intros He Hu Hy Hp.
  repeat apply conj.
  1-4: unfold Extractor.extract, Updater.getCurrentFrontmatter,
    Updater.updateFields, Updater.removeFields, wrap_errors, try_catch, bind,
    readFile, lift, throw, Extractor.parseFrontmatter,
    Updater.extractExistingFrontmatter;
    rewrite ?He, ?Hu, Hy, Hp; reflexivity.
  intros updates.
  destruct (updateFrontmatterInContent_present updater content value
              (JObj updates) Hy) as (i & _ & Hi & Hup).
  exists i. split; [exact Hi|].
  unfold Updater.updateFrontmatter, wrap_errors, try_catch, bind, readFile, lift,
    writeFile, Updater.with_frontmatter.
  rewrite Hu, Hup. reflexivity.
Qed.

(** X10.  On the same path, [getCurrentFrontmatter] and [extract] without
    a field filter agree: both throw, or both return the same value. *)
Theorem getCurrentFrontmatter_is_unfiltered_extract
    (extractor : Extractor.MarkdownFrontmatterExtractor)
    (updater : Updater.MarkdownFrontmatterUpdater) (w : world) :
  Extractor.filePath extractor = Updater.filePath updater ->
  Extractor.fields (Extractor.options extractor) = None ->
  match (Extractor.extract extractor w).1,
        (Updater.getCurrentFrontmatter updater w).1 with
  | Returned a, Returned b => a = b
  | Thrown _, Thrown _ => True
  | _, _ => False
  end.
Proof.
  intros Hpath Hf.
  unfold Extractor.extract, Updater.getCurrentFrontmatter, wrap_errors, try_catch,
    bind, readFile, lift, throw, ret, Extractor.parseFrontmatter,
    Updater.extractExistingFrontmatter.
  rewrite Hpath, Hf.
  destruct (files w !! Updater.filePath updater) as [content|]; [|exact I].
  destruct (first_yaml (fromMarkdown content)) as [value|]; [|reflexivity].
  destruct (parseYaml value) as [v|msg]; [|exact I].
  cbn. rewrite (js_or_truthy v). reflexivity.
Qed.

(** X11.  On a document without a [yaml] node and with
    [createIfMissing = true], [updateFields p] does what [updateFrontmatter p]
    does: the new block holds [p] itself (the merge over nothing). *)
Theorem updateFields_creates_like_updateFrontmatter
    (this : Updater.MarkdownFrontmatterUpdater) (p : gmap string jsval)
    (w : world) (content : string) :
  files w !! Updater.filePath this = Some content ->
  first_yaml (fromMarkdown content) = None ->
  Updater.createIfMissing (Updater.options this) = true ->
  Updater.updateFields this p w = Updater.updateFrontmatter this p w
  /\ Updater.updateFields this p w =
       (Returned tt,
        after_write w (Updater.filePath this)
          (toMarkdown (yaml (Updater.encode_frontmatter (JObj p))
                       :: fromMarkdown content))).
Proof.
  intros Hfile Hy Hc.
  assert (spread2 None (Some (JObj p)) = p) as Hspread.
  { apply map_eq. intros k. apply spread_null_lookup. }
  unfold Updater.updateFields, Updater.updateFrontmatter, wrap_errors, try_catch,
    bind, readFile, lift, writeFile.
  rewrite Hfile, (extractExistingFrontmatter_absent _ Hy), Hspread.
  rewrite (updateFrontmatterInContent_absent _ _ _ Hy), Hc. split; reflexivity.
Qed.

End ReadErrors.

Section SingleFile.
Context {md : MarkdownLib} {yml : YamlLib} {host : Host}.
Import GenerativeTags.

Lemma extract_unfiltered_present file w content value v :
  files w !! file = Some content ->
  first_yaml (fromMarkdown content) = Some value ->
  parseYaml value = Returned v ->
  Extractor.extract (Extractor.new_MarkdownFrontmatterExtractor file) w =
    (Returned (Some (js_or v (JObj ∅))), w).
Proof.
  intros Hfile Hy Hp.
  unfold Extractor.extract, wrap_errors, try_catch, bind, readFile, lift, ret.
  cbn [Extractor.filePath Extractor.new_MarkdownFrontmatterExtractor
       Extractor.options Extractor.fields].
  rewrite Hfile, (parseFrontmatter_present _ _ _ Hy Hp), (js_or_truthy v).
  reflexivity.
Qed.

Lemma extract_unfiltered_absent file w content :
  files w !! file = Some content ->
  first_yaml (fromMarkdown content) = None ->
  Extractor.extract (Extractor.new_MarkdownFrontmatterExtractor file) w =
    (Returned None, w).
Proof.
  intros Hfile Hy.
  unfold Extractor.extract, wrap_errors, try_catch, bind, readFile, lift, ret.
  cbn [Extractor.filePath Extractor.new_MarkdownFrontmatterExtractor].
  rewrite Hfile, (parseFrontmatter_absent _ Hy). reflexivity.
Qed.

Lemma generateTags_answer (frontmatter : option jsval) prompt w answer :
  prompt = match frontmatter with
           | Some v => if truthy v then JSON_stringify v else "No frontmatter available"
           | None => "No frontmatter available"
           end ->
  generateObject (ai_calls w) prompt = Returned answer ->
  answer <> [] ->
  generateTags frontmatter w = (Returned (take 3 answer), after_ai_request w).
Proof.
  intros -> Hai Hne.
  unfold generateTags, wrap_errors, try_catch, bind, ai_request, ret.
  rewrite Hai. destruct answer as [|t answer]; [contradiction|]. reflexivity.
Qed.

(** X12.  Processing one file whose metadata mapping is [m], when the AI
    service answers the prompt [JSON.stringify(m)] with a non-empty list:
    one request is counted, the file is rewritten with the mapping [m] in
    which [tags] holds the first three answers and every other key is as it
    was, and the success is reported on the console. *)
Theorem processSingleFile_merges_tags this file w content value m answer :
  files w !! file = Some content ->
  first_yaml (fromMarkdown content) = Some value ->
  parseYaml value = Returned (JObj m) ->
  generateObject (ai_calls w) (JSON_stringify (JObj m)) = Returned answer ->
  answer <> [] ->
  exists merged i,
    (forall k, merged !! k =
               if bool_decide (k = "tags") then Some (JArr (JStr <$> take 3 answer))
               else m !! k)
    /\ fromMarkdown content !! i = Some (yaml value)
    /\ processSingleFile this file w =
         (Returned tt,
          after_console
            (after_write (after_ai_request w) file
               (Updater.with_frontmatter content i merged))
            (log_generated file (take 3 answer))).
Proof.
  intros Hfile Hy Hp Hai Hne.
  set (merged := spread2 (Some (JObj m)) (Some (JObj (tags_object (take 3 answer))))).
  set (updater := Updater.new_MarkdownFrontmatterUpdater file
                    (Some (createIfMissing (options this))) None).
  destruct (updateFrontmatterInContent_present updater content value (JObj merged) Hy)
    as (i & _ & Hi & Hupd).
  exists merged, i. split; [|split; [exact Hi|]].
  - intros k. unfold merged. rewrite spread2_lookup. unfold tags_object.
    case_bool_decide as Hk.
    + subst k. rewrite lookup_singleton_eq. reflexivity.
    + rewrite lookup_singleton_ne by congruence. reflexivity.
  - unfold processSingleFile, try_catch. unfold bind at 1.
    rewrite (extract_unfiltered_present _ _ _ _ _ Hfile Hy Hp).
    unfold js_or. cbn [truthy]. unfold bind at 1.
    rewrite (generateTags_answer (Some (JObj m)) _ w answer eq_refl Hai Hne).
    cbn [js_not truthy negb].
    unfold bind at 1. unfold Updater.updateFields, wrap_errors, try_catch, bind,
      readFile, lift, writeFile, console_emit.
    cbn [Updater.filePath Updater.new_MarkdownFrontmatterUpdater files after_ai_request].
    rewrite Hfile, (extractExistingFrontmatter_present _ _ _ Hy Hp).
    unfold js_or. cbn [truthy].
    fold merged. fold updater. rewrite Hupd. reflexivity.
Qed.

(** X13.  Processing one file without a [yaml] node: the AI service is
    asked first, with the prompt [No frontmatter available].  With
    [createIfMissing] the file gets a new block holding only the tags;
    without it the run throws the no-frontmatter error after the request
    has been made, and writes nothing. *)
Theorem processSingleFile_without_frontmatter this file w content answer :
  files w !! file = Some content ->
  first_yaml (fromMarkdown content) = None ->
  generateObject (ai_calls w) "No frontmatter available" = Returned answer ->
  answer <> [] ->
  processSingleFile this file w =
    if createIfMissing (options this) then
      (Returned tt,
       after_console
         (after_write (after_ai_request w) file
            (toMarkdown
               (yaml (Updater.encode_frontmatter (JObj (tags_object (take 3 answer))))
                :: fromMarkdown content)))
         (log_generated file (take 3 answer)))
    else
      (Thrown Updater.NoFrontmatterError,
       after_console (after_ai_request w)
         (error_failed_to_process file Updater.NoFrontmatterError)).
Proof.
  intros Hfile Hy Hai Hne.
  unfold processSingleFile, try_catch. unfold bind at 1.
  rewrite (extract_unfiltered_absent _ _ _ Hfile Hy). unfold bind at 1.
  rewrite (generateTags_answer None _ w answer eq_refl Hai Hne).
  cbn [js_not negb].
  destruct (createIfMissing (options this)) eqn:Hc.
  - unfold bind at 1. unfold Updater.updateFrontmatter, wrap_errors, try_catch, bind,
      readFile, lift, writeFile, console_emit.
    cbn [Updater.filePath Updater.new_MarkdownFrontmatterUpdater files after_ai_request].
    rewrite Hfile, (updateFrontmatterInContent_absent _ _ _ Hy).
    cbn [Updater.options Updater.createIfMissing Updater.new_MarkdownFrontmatterUpdater
         default from_option id]. reflexivity.
  - reflexivity.
Qed.

End SingleFile.

Section Batch.
Context {md : MarkdownLib} {yml : YamlLib} {host : Host}.
Import GenerativeTags.

Lemma extract_keeps_world e : keeps id (Extractor.extract e).
Proof. unfold Extractor.extract. frame. Qed.

Lemma generateTags_keeps {X} (f : world -> X) fm :
  (forall w, f (after_ai_request w) = f w) -> keeps f (generateTags fm).
Proof.
  intros Hf. unfold generateTags. frame. intros w. apply Hf.
Qed.

Lemma processSingleFile_effects this file w :
  match processSingleFile this file w with
  | (Thrown _, w') => files w' = files w /\ written w' = written w
  | (Returned _, w') =>
      exists content,
        files w' = <[file := content]> (files w)
        /\ written w' = written w ++ [(file, content)]
  end.
Proof.
  unfold processSingleFile, try_catch. unfold bind at 1.
  pose proof (extract_keeps_world
                (Extractor.new_MarkdownFrontmatterExtractor file) w) as He.
  destruct (Extractor.extract _ w) as [[existing|msg] w1]; cbn in He; subst w1;
    [|cbn; split; reflexivity].
  unfold bind at 1.
  pose proof (generateTags_keeps files existing (fun _ => eq_refl) w) as Hf.
  pose proof (generateTags_keeps written existing (fun _ => eq_refl) w) as Hw.
  destruct (generateTags existing w) as [[tags|msg] w2]; cbn in Hf, Hw;
    [|cbn; split; assumption].
  unfold bind at 1.
  set (updater := Updater.new_MarkdownFrontmatterUpdater file _ None).
  destruct (negb (js_not existing)).
  - pose proof (updateFields_writes_once updater (tags_object tags) w2) as Hu.
    destruct (Updater.updateFields updater (tags_object tags) w2) as [[[]|msg] w3].
    + destruct Hu as (content & ->). exists content. cbn. rewrite Hf, Hw.
      split; reflexivity.
    + subst w3. cbn. split; assumption.
  - destruct (createIfMissing (options this)).
    + pose proof (updateFrontmatter_writes_once updater (tags_object tags) w2) as Hu.
      destruct (Updater.updateFrontmatter updater (tags_object tags) w2)
        as [[[]|msg] w3].
      * destruct Hu as (content & ->). exists content. cbn. rewrite Hf, Hw.
        split; reflexivity.
      * subst w3. cbn. split; assumption.
    + cbn. split; assumption.
Qed.

(** X14.  [run] on a path without [*] and [?] touches that file only: when
    it returns, exactly one write was made, to that path; when it throws,
    every other file is what it was. *)
Theorem run_on_one_file_touches_only_that_file this w :
  isGlobPattern (filePath this) = false ->
  match run this w with
  | (Thrown _, w') =>
      forall p, p <> filePath this -> files w' !! p = files w !! p
  | (Returned _, w') =>
      exists content,
        files w' = <[filePath this := content]> (files w)
        /\ written w' = written w ++ [(filePath this, content)]
  end.
Proof.
  intros Hglob. unfold run, wrap_errors, try_catch, throw. rewrite Hglob.
  pose proof (processSingleFile_effects this (filePath this) w) as H.
  destruct (processSingleFile this (filePath this) w) as [[[]|msg] w'];
    [exact H|].
  destruct H as [Hf _]. intros p _. rewrite Hf. reflexivity.
Qed.

End Batch.

Section Batch2.
Context {md : MarkdownLib} {yml : YamlLib} {host : Host}.
Import GenerativeTags.

Lemma collect_matching_spec dir pattern entries acc w :
  match collect_matching dir pattern entries acc w with
  | (Returned matching, w') =>
      w' = w /\
      matching = acc ++ (path_join dir <$> List.filter (selected w dir pattern) entries)
  | (Thrown _, w') => w' = w
  end.
Proof.
  revert acc. induction entries as [|file rest IH]; intros acc.
  - cbn. split; [reflexivity | rewrite app_nil_r; reflexivity].
  - cbn [collect_matching]. unfold bind at 1. unfold stat_isFile.
    cbn [List.filter]. unfold selected at 1.
    destruct (files w !! path_join dir file) as [c|] eqn:Hf.
    + rewrite (bool_decide_eq_true_2 (is_Some (Some c))) by eauto.
      unfold bind at 1. unfold lift.
      destruct (matchesGlob file pattern) as [[|]|msg]; cbn [andb].
      * specialize (IH (acc ++ [path_join dir file])).
        destruct (collect_matching _ _ rest _ w) as [[matching|msg] w']; [|exact IH].
        destruct IH as [-> ->]. split; [reflexivity|].
        rewrite <- app_assoc. reflexivity.
      * apply IH.
      * reflexivity.
    + rewrite (bool_decide_eq_false_2 (is_Some None)) by (intros [? [=]]).
      cbn [andb]. destruct (dirs w !! path_join dir file); [|reflexivity].
      unfold bind at 1. unfold ret at 1. apply IH.
Qed.

Lemma findMatchingFiles_world this w : (findMatchingFiles this w).2 = w.
Proof.
  unfold findMatchingFiles, wrap_errors, try_catch, throw. unfold bind at 1.
  unfold readdir.
  destruct (dirs w !! path_dirname (filePath this)) as [entries|]; [|reflexivity].
  pose proof (collect_matching_spec (path_dirname (filePath this))
                (path_basename (filePath this)) entries [] w) as H.
  destruct (collect_matching _ _ entries [] w) as [[matching|msg] w']; cbn.
  - apply H.
  - exact H.
Qed.

(** X15.  [findMatchingFiles] is read-only, and when it returns it returns,
    in the order of the directory listing, the joined paths of exactly the
    entries that are regular files and that [matchesGlob] accepts. *)
Theorem findMatchingFiles_selects this w :
  match findMatchingFiles this w with
  | (Returned matching, w') =>
      w' = w /\
      exists entries,
        dirs w !! path_dirname (filePath this) = Some entries
        /\ matching =
             (path_join (path_dirname (filePath this)) <$>
              List.filter (selected w (path_dirname (filePath this))
                             (path_basename (filePath this))) entries)
  | (Thrown _, w') => w' = w
  end.
Proof.
  unfold findMatchingFiles, wrap_errors, try_catch, throw. unfold bind at 1.
  unfold readdir.
  destruct (dirs w !! path_dirname (filePath this)) as [entries|]; [|reflexivity].
  pose proof (collect_matching_spec (path_dirname (filePath this))
                (path_basename (filePath this)) entries [] w) as H.
  destruct (collect_matching _ _ entries [] w) as [[matching|msg] w']; [|exact H].
  destruct H as [-> ->]. split; [reflexivity|]. exists entries. split; reflexivity.
Qed.

Lemma process_each_touches_only this matching w p :
  p ∉ matching ->
  files (process_each this matching w).2 !! p = files w !! p.
Proof.
  revert w. induction matching as [|file rest IH]; intros w Hp; [reflexivity|].
  apply not_elem_of_cons in Hp as [Hne Hrest].
  cbn [process_each]. unfold bind, try_catch.
  pose proof (processSingleFile_effects this file w) as Hone.
  destruct (processSingleFile this file w) as [[[]|msg] w1].
  - destruct Hone as (content & Hf & _).
    rewrite (IH w1 Hrest), Hf. apply lookup_insert_ne. congruence.
  - destruct Hone as [Hf _]. unfold console_emit.
    rewrite IH by exact Hrest. cbn. rewrite Hf. reflexivity.
Qed.

(** X16.  Batch processing changes no file outside the list of matching
    files; when the directory cannot be listed it changes nothing at all. *)
Theorem batch_touches_only_matching_files this w :
  match findMatchingFiles this w with
  | (Returned matching, _) =>
      forall p, p ∉ matching ->
                files (processGlobPattern this w).2 !! p = files w !! p
  | (Thrown _, _) => (processGlobPattern this w).2 = w
  end.
Proof.
  pose proof (findMatchingFiles_world this w) as Hfind.
  destruct (findMatchingFiles this w) as [[matching|msg] w1] eqn:E;
    cbn in Hfind.
  - subst w1. intros p Hp.
    unfold processGlobPattern, wrap_errors, try_catch. unfold bind at 1.
    rewrite E. destruct matching as [|file rest]; [reflexivity|].
    cbn [List.length Nat.eqb]. unfold bind at 1. unfold console_emit at 1.
    match goal with |- context [process_each this (file :: rest) ?w2] =>
      pose proof (process_each_touches_only this (file :: rest) w2 p Hp) as H;
      destruct (process_each this (file :: rest) w2) as [[[]|m] w3] end;
      exact H.
  - subst w1. unfold processGlobPattern, wrap_errors, try_catch, bind, throw.
    rewrite E. reflexivity.
Qed.

End Batch2.

Section GlobMore.
Import RegExp.

Lemma literal_chars_are_safe pattern :
  string_forallb glob_literal_char pattern = true ->
  string_forallb glob_safe_char pattern = true.
Proof.
  induction pattern as [|c rest IH]; [reflexivity|]. cbn [string_forallb].
  intros H. apply andb_true_iff in H as [Hc Hrest]. rewrite (IH Hrest), andb_true_r.
  unfold glob_literal_char in Hc. unfold glob_safe_char.
  apply orb_true_iff in Hc as [->| ->]; rewrite ?orb_true_r; reflexivity.
Qed.

Lemma matches_literal_terms pattern b s :
  string_forallb glob_literal_char pattern = true ->
  matches (glob_terms pattern ++ [AssertEnd]) b s = String.eqb pattern s.
Proof.
  revert b s. induction pattern as [|p rest IH]; intros b s Hp.
  - destruct s; reflexivity.
  - cbn [string_forallb] in Hp. apply andb_true_iff in Hp as [Hc Hrest].
    assert (Ascii.eqb p "*" = false /\ Ascii.eqb p "?" = false) as [Hstar Hq].
    { unfold glob_literal_char in Hc. apply orb_true_iff in Hc as [Hc|Hc].
      - apply Ascii.eqb_eq in Hc. subst p. split; reflexivity.
      - apply negb_true_iff in Hc. destruct (plain_char p Hc) as (_&_&_&_&H5&_&H7).
        split; assumption. }
    cbn [glob_terms]. unfold glob_term. rewrite Hstar, Hq.
    destruct s as [|c s]; [reflexivity|].
    cbn [app matches atom_matches String.eqb]. rewrite (IH false s Hrest).
    destruct (Ascii.eqb p c); reflexivity.
Qed.

(** X17.  A pattern without wildcards, made of [.] and of characters that
    are not syntax characters of regular expressions, accepts a file name
    exactly when the two are equal: the dot is literal. *)
Theorem matchesGlob_literal_pattern (host : Host) (filename pattern : string) :
  string_forallb glob_literal_char pattern = true ->
  GenerativeTags.matchesGlob filename pattern = Returned (String.eqb pattern filename).
Proof.
  intros Hp. unfold GenerativeTags.matchesGlob, test, parse.
  rewrite glob_source_spec.
  change ("^" +:+ glob_source pattern +:+ "$")
    with (String "^" (glob_source pattern +:+ "$")).
  cbn [parse_from]. cbn.
  rewrite (parse_glob_source pattern Nothing [AssertStart]
             (literal_chars_are_safe _ Hp) I).
  cbn [flush rev app]. rewrite search_anchored.
  f_equal. apply matches_literal_terms. exact Hp.
Qed.

(** X18.  A pattern that starts with [+] makes [matchesGlob] throw a
    syntax error for every file name: the regular expression built from it
    starts with [^+]. *)
Theorem matchesGlob_leading_plus_throws (host : Host) (filename rest : string) :
  GenerativeTags.matchesGlob filename (String "+" rest) =
    Thrown ("Invalid regular expression: /" +:+ ("^+" +:+ glob_source rest +:+ "$")
            +:+ "/: Nothing to repeat").
Proof.
  unfold GenerativeTags.matchesGlob, test, parse.
  rewrite glob_source_spec. reflexivity.
Qed.

End GlobMore.

Section SplitProperties.
Import Cli.

Lemma split_nonempty sep s : split sep s <> [].
Proof.
  destruct s as [|c s]; cbn; [discriminate|].
  destruct (Ascii.eqb c sep); [discriminate|].
  destruct (split sep s); discriminate.
Qed.

Lemma split_without_sep sep s :
  includes sep s = false -> split sep s = [s].
Proof.
  induction s as [|c s IH]; [reflexivity|]. cbn.
  intros H. apply orb_false_iff in H as [Hc Hs].
  rewrite Hc, (IH Hs). reflexivity.
Qed.

Lemma split_at_first_sep sep a b :
  includes sep a = false ->
  split sep (a +:+ String sep b) = a :: split sep b.
Proof.
  induction a as [|c a IH]; intros H.
  - change ("" +:+ String sep b) with (String sep b).
    cbn [split]. rewrite Ascii.eqb_refl. reflexivity.
  - cbn in H. apply orb_false_iff in H as [Hc Ha].
    change (String c a +:+ String sep b) with (String c (a +:+ String sep b)).
    cbn [split]. rewrite Hc, (IH Ha). reflexivity.
Qed.

Lemma split_join sep (parts : list string) :
  parts <> [] ->
  Forall (fun p => includes sep p = false) parts ->
  split sep (join sep parts) = parts.
Proof.
  induction parts as [|p rest IH]; [contradiction|]. intros _ Hall.
  apply Forall_cons in Hall as [Hp Hrest].
  destruct rest as [|q rest].
  - cbn. apply split_without_sep. exact Hp.
  - change (join sep (p :: q :: rest)) with (p +:+ String sep (join sep (q :: rest))).
    rewrite (split_at_first_sep _ _ _ Hp), IH; [reflexivity | discriminate | exact Hrest].
Qed.

Lemma startsWith_append prefix s : startsWith prefix (prefix +:+ s) = true.
Proof.
  unfold startsWith. induction prefix as [|c prefix IH]; [destruct s; reflexivity|].
  change (String c prefix +:+ s) with (String c (prefix +:+ s)). cbn.
  destruct (ascii_dec c c); [exact IH | contradiction].
Qed.

End SplitProperties.

Section CliParsing.
Import Cli.

Lemma includes_app c a b : includes c (a +:+ b) = includes c a || includes c b.
Proof.
  induction a as [|x a IH]; [reflexivity|].
  change (String x a +:+ b) with (String x (a +:+ b)). cbn.
  rewrite IH. apply orb_assoc.
Qed.

(** X19.  [option.split('=')[1]], by which the commands read the value of
    [--fields=], [--update=] and [--remove=]: a value without [=] is read
    whole, and a value with [=] is cut at its first [=]. *)
Theorem option_value_stops_at_the_next_equals (name : string) :
  includes "=" name = false ->
  (forall value,
     includes "=" value = false ->
     option_value (name +:+ String "=" value) = Some value)
  /\ (forall value rest,
        includes "=" value = false ->
        option_value (name +:+ String "=" (value +:+ String "=" rest)) = Some value).
Proof.
  intros Hname. unfold option_value. split.
  - intros value Hv.
    rewrite (split_at_first_sep _ _ _ Hname), (split_without_sep _ _ Hv). reflexivity.
  - intros value rest Hv.
    rewrite (split_at_first_sep _ _ _ Hname), (split_at_first_sep _ _ _ Hv).
    reflexivity.
Qed.

Lemma join_cons_nonempty sep p q rest :
  join sep (p :: q :: rest) = p +:+ String sep (join sep (q :: rest)).
Proof. reflexivity. Qed.

Lemma includes_join c sep (parts : list string) :
  Ascii.eqb sep c = false ->
  Forall (fun p => includes c p = false) parts ->
  includes c (join sep parts) = false.
Proof.
  intros Hsep. induction parts as [|p rest IH]; [reflexivity|].
  intros Hall. apply Forall_cons in Hall as [Hp Hrest].
  destruct rest as [|q rest]; [exact Hp|].
  rewrite join_cons_nonempty, includes_app, Hp. cbn [includes orb].
  rewrite Hsep. cbn [orb]. apply IH. exact Hrest.
Qed.

Lemma join_not_empty sep (parts : list string) :
  parts <> [] -> Forall (fun p => p <> "") parts -> join sep parts <> "".
Proof.
  destruct parts as [|p rest]; [contradiction|]. intros _ Hall.
  apply Forall_cons in Hall as [Hp _].
  destruct rest as [|q rest]; [exact Hp|].
  rewrite join_cons_nonempty. destruct p; [contradiction | discriminate].
Qed.

Lemma fields_option_list (file : string) (names rest : list string) :
  startsWith "--fields=" file = false ->
  names <> [] ->
  Forall plain_name names ->
  fields_option (file :: ("--fields=" +:+ join "," names) :: rest) = Some names.
Proof.
  intros Hfile Hne Hall. unfold fields_option. cbn [List.find]. rewrite Hfile.
  rewrite (startsWith_append "--fields=" (join "," names)).
  assert (includes "=" (join "," names) = false) as Heq.
  { apply includes_join; [reflexivity|].
    eapply Forall_impl; [exact Hall|]. intros n (_ & _ & H & _). exact H. }
  unfold option_value.
  change ("--fields=" +:+ join "," names)
    with ("--fields" +:+ String "=" (join "," names)).
  rewrite (split_at_first_sep "=" "--fields" _ eq_refl), (split_without_sep _ _ Heq).
  cbn [lookup list_lookup].
  assert (join "," names <> "") as Hnonempty.
  { apply join_not_empty; [exact Hne|].
    eapply Forall_impl; [exact Hall|]. intros n (H & _). exact H. }
  apply String.eqb_neq in Hnonempty. rewrite Hnonempty.
  f_equal. unfold parse_list. rewrite split_join; [|exact Hne|].
  - clear -Hall. induction Hall as [|n l (_ & _ & _ & Ht) _ IH]; [reflexivity|].
    cbn. rewrite Ht, IH. reflexivity.
  - eapply Forall_impl; [exact Hall|]. intros n (_ & H & _). exact H.
Qed.

(** X20.  The [--fields=] argument built from a list of plain names by
    joining them with commas is read back as that list; an empty value, or
    no [--fields=] argument, is no filter. *)
Theorem fields_option_reads_the_list (file : string) (names rest : list string) :
  startsWith "--fields=" file = false ->
  names <> [] ->
  Forall plain_name names ->
  fields_option (file :: ("--fields=" +:+ join "," names) :: rest) = Some names
  /\ fields_option [file; "--fields="] = None
  /\ fields_option [file] = None.
Proof.
  intros Hfile Hne Hall. split; [apply fields_option_list; assumption|].
  unfold fields_option. cbn [List.find]. rewrite Hfile. split; reflexivity.
Qed.

End CliParsing.

Section SetParsing.
Import Cli.

Lemma rev_app_append (a b c : string) :
  String.rev_app (a +:+ b) c = String.rev_app b (String.rev_app a c).
Proof.
  revert c. induction a as [|x a IH]; intros c; [reflexivity|].
  change (String x a +:+ b) with (String x (a +:+ b)). cbn. apply IH.
Qed.

Lemma rev_app_rev_app (a b c : string) :
  String.rev_app (String.rev_app a b) c = String.rev_app b (a +:+ c).
Proof.
  revert b c. induction a as [|x a IH]; intros b c; [reflexivity|].
  cbn. rewrite IH. reflexivity.
Qed.

Lemma rev_involutive (s : string) : String.rev (String.rev s) = s.
Proof. unfold String.rev. rewrite rev_app_rev_app. cbn. apply append_empty_r. Qed.

Lemma rev_snoc (s : string) (c : ascii) :
  String.rev (s +:+ String c "") = String c (String.rev s).
Proof. unfold String.rev. rewrite rev_app_append. reflexivity. Qed.

(** X21.  The replacement applied to the value of a [--set] pair removes
    the quote character at its start and the one at its end (double or
    single, in any combination), and nothing else. *)
Theorem strip_quotes_unquotes (inner : string) (open close : ascii) :
  is_quote open = true ->
  is_quote close = true ->
  strip_quotes (String open (inner +:+ String close "")) = inner.
Proof.
  intros Ho Hc. unfold strip_quotes. cbn [strip_leading_quote]. rewrite Ho.
  rewrite rev_snoc. cbn [strip_leading_quote]. rewrite Hc.
  apply rev_involutive.
Qed.

Lemma set_field_strings (fieldUpdates : gmap string jsval) (arg : string) :
  map_Forall (fun _ v => exists s, v = JStr s) fieldUpdates ->
  map_Forall (fun _ v => exists s, v = JStr s) (set_field fieldUpdates arg).
Proof.
  intros H. unfold set_field. destruct (includes "=" arg); [|exact H].
  destruct (take 2 (split "=" arg)) as [|key [|value [|? ?]]]; try exact H.
  destruct (negb (String.eqb key "") && negb (String.eqb value "")); [|exact H].
  unfold js_set. case_bool_decide; [exact H|].
  apply map_Forall_insert_2; [eauto | exact H].
Qed.

Lemma parse_set_without_pairs (setArgs : list string) :
  Forall (fun arg => includes "=" arg = false) setArgs -> parse_set setArgs = ∅.
Proof.
  intros Hall. unfold parse_set. generalize (∅ : gmap string jsval).
  induction Hall as [|arg rest Harg _ IH]; intros acc; [reflexivity|].
  cbn. unfold set_field at 2. rewrite Harg. apply IH.
Qed.

(** X22.  The loop over the [--set] arguments: every value it stores is a
    string; a last argument [key=value] (non-empty, without further [=],
    the key not [__proto__]) sets [key] to [value] without its quotes; and
    arguments without [=] store nothing. *)
Theorem parse_set_reads_strings (setArgs : list string) :
  (forall key v, parse_set setArgs !! key = Some v -> exists s, v = JStr s)
  /\ (forall before key value,
        setArgs = before ++ [key +:+ String "=" value] ->
        key <> "" -> key <> "__proto__" -> includes "=" key = false ->
        value <> "" -> includes "=" value = false ->
        parse_set setArgs !! key = Some (JStr (strip_quotes value)))
  /\ (Forall (fun arg => includes "=" arg = false) setArgs -> parse_set setArgs = ∅).
Proof.
  split; [|split].
  - assert (map_Forall (fun _ v => exists s : string, v = JStr s) (parse_set setArgs))
      as H.
    { unfold parse_set. generalize (map_Forall_empty
        (fun (_ : string) v => exists s : string, v = JStr s) (M := gmap string)).
      generalize (∅ : gmap string jsval).
      induction setArgs as [|arg rest IH]; intros acc Hacc; [exact Hacc|].
      cbn. apply IH, set_field_strings, Hacc. }
    intros key v Hk. exact (H key v Hk).
  - intros before key value -> Hk Hproto Hkey Hv Hvalue.
    unfold parse_set. rewrite foldl_app. cbn [foldl]. unfold set_field.
    rewrite includes_app. cbn [includes]. rewrite orb_true_r.
    rewrite (split_at_first_sep _ _ _ Hkey), (split_without_sep _ _ Hvalue).
    cbn [take]. apply String.eqb_neq in Hk, Hv. rewrite Hk, Hv. cbn [negb andb].
    unfold js_set. rewrite bool_decide_eq_false_2 by exact Hproto.
    apply lookup_insert_eq.
  - apply parse_set_without_pairs.
Qed.

End SetParsing.

Section CommandProperties.
Context {md : MarkdownLib} {yml : YamlLib} {host : Host} {cli_host : Cli.CliHost}.
Import Cli.

Lemma filter_loop_own_names (m : gmap string jsval) (names : list string) :
  Forall (fun n => n ∉ Object_prototype_keys) names ->
  exists filtered,
    Extractor.filterFields (JObj m) names = Returned filtered
    /\ forall k, filtered !! k = if bool_decide (k ∈ names) then m !! k else None.
Proof.
  intros Hall. unfold Extractor.filterFields.
  destruct (filter_loop_lookup m names ∅) as (r & Hr & Hl).
  exists r. split; [exact Hr|]. intros k. rewrite Hl, lookup_empty.
  case_bool_decide as Hk; [|reflexivity]. cbn [andb].
  rewrite Forall_forall in Hall. specialize (Hall k Hk).
  unfold js_in, js_get. rewrite (bool_decide_eq_false_2 _ Hall), orb_false_r.
  assert (k <> "__proto__") as Hp.
  { intros ->. apply Hall. unfold Object_prototype_keys. set_solver. }
  rewrite (bool_decide_eq_false_2 _ Hp). cbn [negb].
  destruct (m !! k) as [v|].
  - rewrite (bool_decide_eq_true_2 (is_Some (Some v))) by eauto. reflexivity.
  - rewrite (bool_decide_eq_false_2 (is_Some None)) by (intros [? [=]]). reflexivity.
Qed.

(** X23.  [extract-frontmatter file --fields=n1,...,nk] on a document whose
    metadata mapping is [m], for plain names that are not property names of
    [Object.prototype]: the command prints the JSON of exactly the entries
    of [m] under the requested names, changes nothing, and ends normally. *)
Theorem extract_command_prints_the_projection
    (file : string) (names : list string) (w : world)
    (content value : string) (m : gmap string jsval) :
  file <> "" ->
  startsWith "--fields=" file = false ->
  names <> [] ->
  Forall plain_name names ->
  Forall (fun n => n ∉ Object_prototype_keys) names ->
  files w !! path_resolve file = Some content ->
  first_yaml (fromMarkdown content) = Some value ->
  parseYaml value = Returned (JObj m) ->
  exists filtered,
    (forall k, filtered !! k = if bool_decide (k ∈ names) then m !! k else None)
    /\ main ["extract-frontmatter"; file; "--fields=" +:+ join "," names] w =
         mkResult Finished [stdout_line (JSON_stringify (JObj filtered))] w.
Proof.
  intros Hfile Hstart Hne Hplain Hown Hf Hy Hp.
  destruct (filter_loop_own_names m names Hown) as (filtered & Hfilter & Hl).
  exists filtered. split; [exact Hl|].
  unfold main. cbn [String.eqb Ascii.eqb Bool.eqb]. unfold handleExtractFrontmatter.
  apply String.eqb_neq in Hfile. rewrite Hfile.
  rewrite (fields_option_list file names [] Hstart Hne Hplain).
  unfold Extractor.extract, wrap_errors, try_catch, bind, readFile, lift, ret.
  cbn [Extractor.filePath Extractor.options Extractor.fields].
  rewrite Hf, (parseFrontmatter_present _ _ _ Hy Hp).
  unfold js_or. cbn [truthy negb].
  destruct names as [|n names']; [contradiction|].
  rewrite Hfilter. reflexivity.
Qed.

Lemma extract_keeps_the_world e : keeps id (Extractor.extract e).
Proof. unfold Extractor.extract. frame. Qed.

(** X24.  The [extract-frontmatter] command never changes the world,
    whatever its arguments; on a readable document without a [yaml] node it
    prints [No frontmatter found] and ends normally. *)
Theorem extract_command_is_read_only (args : list string) (w : world) :
  world_after (cli ("extract-frontmatter" :: args) w) = w
  /\ (forall file rest content,
        args = file :: rest ->
        file <> "" ->
        files w !! path_resolve file = Some content ->
        first_yaml (fromMarkdown content) = None ->
        cli ("extract-frontmatter" :: args) w =
          mkResult Finished [stdout_line "No frontmatter found"] w).
Proof.
  unfold cli, main. cbn [String.eqb Ascii.eqb Bool.eqb]. split.
  - unfold handleExtractFrontmatter. destruct args as [|file rest]; [reflexivity|].
    destruct (String.eqb file ""); [reflexivity|].
    match goal with |- context [Extractor.extract ?e w] =>
      pose proof (extract_keeps_the_world e w) as H;
      destruct (Extractor.extract e w) as [[result|msg] w'] end;
      cbn in H; subst w'; reflexivity.
  - intros file rest content -> Hfile Hf Hy.
    unfold handleExtractFrontmatter. apply String.eqb_neq in Hfile. rewrite Hfile.
    unfold Extractor.extract, wrap_errors, try_catch, bind, readFile, lift, ret.
    cbn [Extractor.filePath]. rewrite Hf, (parseFrontmatter_absent _ Hy).
    reflexivity.
Qed.

(** X25.  [update-frontmatter file --set ...] in which no [--set] value
    has an [=]: the command writes nothing, prints nothing and ends
    normally. *)
Theorem update_command_set_without_pairs_is_silent
    (file : string) (rest : list string) (values : update_values)
    (setArgs : list string) (w : world) :
  file <> "" ->
  parseArgs_update rest = Returned values ->
  update values = None ->
  set values = Some setArgs ->
  setArgs <> [] ->
  Forall (fun arg => includes "=" arg = false) setArgs ->
  cli ("update-frontmatter" :: file :: rest) w = mkResult Finished [] w.
Proof.
  intros Hfile Hparse Hupdate Hset Hne Hall.
  unfold cli, main. cbn [String.eqb Ascii.eqb Bool.eqb].
  unfold handleUpdateFrontmatter. apply String.eqb_neq in Hfile.
  rewrite Hfile, Hparse, Hupdate, Hset.
  destruct setArgs as [|arg setArgs']; [contradiction|].
  rewrite (parse_set_without_pairs _ Hall).
  rewrite bool_decide_eq_true_2 by reflexivity. reflexivity.
Qed.

(** X26.  An error thrown by [parseArgs] (in [update-frontmatter] and
    [generate-tags]) is outside the [try]: it leaves [main], is printed by
    [console.error], and the process ends with exit code 0, without any
    write; a missing command or a missing file path exits with code 1. *)
Theorem argument_errors_end_with_exit_code_zero
    (file : string) (rest : list string) (msg : string) (w : world) :
  file <> "" ->
  (parseArgs_update rest = Thrown msg ->
   cli ("update-frontmatter" :: file :: rest) w =
     mkResult Finished [stderr_error msg] w)
  /\ (parseArgs_generate rest = Thrown msg ->
      cli ("generate-tags" :: file :: rest) w =
        mkResult Finished [stderr_error msg] w)
  /\ exit_code (cli [] w) = 1
  /\ exit_code (cli ["update-frontmatter"] w) = 1.
Proof.
  intros Hfile. apply String.eqb_neq in Hfile.
  unfold cli, main. cbn [String.eqb Ascii.eqb Bool.eqb].
  unfold handleUpdateFrontmatter, handleGenerateTags. rewrite Hfile.
  split; [intros ->; reflexivity|]. split; [intros ->; reflexivity|].
  split; reflexivity.
Qed.

(** X27.  [update-frontmatter file --update=json] on a document whose
    metadata mapping is [m], when the JSON text holds the object [p]: the
    command merges [p] over [m] (it calls [updateFields]), rewrites the
    file, and prints [Frontmatter updated successfully]. *)
Theorem update_command_merges
    (file text : string) (rest : list string) (values : update_values)
    (p : gmap string jsval) (w : world) (content value : string)
    (m : gmap string jsval) :
  file <> "" ->
  parseArgs_update rest = Returned values ->
  update values = Some text ->
  text <> "" ->
  JSON_parse text = Returned (JObj p) ->
  files w !! path_resolve file = Some content ->
  first_yaml (fromMarkdown content) = Some value ->
  parseYaml value = Returned (JObj m) ->
  exists merged i,
    (forall k, merged !! k = match p !! k with Some v => Some v | None => m !! k end)
    /\ fromMarkdown content !! i = Some (yaml value)
    /\ cli ("update-frontmatter" :: file :: rest) w =
         mkResult Finished [stdout_line "Frontmatter updated successfully"]
           (after_write w (path_resolve file)
              (Updater.with_frontmatter content i merged)).
Proof.
  intros Hfile Hparse Hupdate Htext Hjson Hf Hy Hp.
  set (updater := Updater.new_MarkdownFrontmatterUpdater (path_resolve file)
                    (Some (default false (create values))) None).
  destruct (updateFrontmatterInContent_present updater content value
              (JObj (spread2 (Some (JObj m)) (Some (JObj p)))) Hy)
    as (i & _ & Hi & Hupd).
  exists (spread2 (Some (JObj m)) (Some (JObj p))), i.
  split; [apply spread2_lookup|]. split; [exact Hi|].
  unfold cli, main. cbn [String.eqb Ascii.eqb Bool.eqb].
  unfold handleUpdateFrontmatter. apply String.eqb_neq in Hfile.
  rewrite Hfile, Hparse, Hupdate.
  destruct text as [|c text]; [contradiction|]. rewrite Hjson.
  cbn [own_props]. fold updater.
  unfold Updater.updateFields, wrap_errors, try_catch, bind, readFile, lift, writeFile.
  cbn [Updater.filePath updater Updater.new_MarkdownFrontmatterUpdater].
  rewrite Hf, (extractExistingFrontmatter_present _ _ _ Hy Hp).
  unfold js_or. cbn [truthy]. fold updater. rewrite Hupd. reflexivity.
Qed.

End CommandProperties.

(** * The further theorems at concrete documents and command lines *)

Section MoreWitnesses.
Import FenceCodec Fixture CliFixture.

(** C9 at the batch of the examples: three matching files, of which the
    second fails (the AI request for it is refused).  The run returns, the
    AI service was asked for each of the three files, and the first and
    the third file were rewritten. *)
Lemma batch_failures_are_isolated_witness :
  exists w2,
    GenerativeTags.processGlobPattern batch blog = (Returned tt, w2)
    /\ ai_calls w2 = 3
    /\ (written w2).*1 = ["/blog/a.md"; "/blog/c.md"].
Proof.
  pose proof (batch_failures_are_isolated batch blog) as H.
  assert (GenerativeTags.findMatchingFiles batch blog =
            (Returned ["/blog/a.md"; "/blog/b.md"; "/blog/c.md"], blog)) as Hfind
    by (vm_compute; reflexivity).
  rewrite Hfind in H. destruct H as (w2 & events & Hrun & _ & _ & Hturns & _).
  exists w2. split; [exact Hrun|].
  assert (["/blog/a.md"; "/blog/b.md"; "/blog/c.md"] <> []) as Hne by discriminate.
  rewrite (Hturns Hne). vm_compute. split; reflexivity.
Defined.

Lemma operations_on_a_missing_file_witness :
  Extractor.extract (extractor None) empty_world =
    (Thrown ("Failed to extract frontmatter from /blog/post.md: "
             +:+ ENOENT_open "/blog/post.md"), empty_world)
  /\ Updater.getCurrentFrontmatter (updater true) empty_world =
    (Thrown ("Failed to read frontmatter from /blog/post.md: "
             +:+ ENOENT_open "/blog/post.md"), empty_world).
Proof.
  pose proof (operations_on_a_missing_file (extractor None) (updater true)
                {[ "draft" := JBool false ]} ["tags"] empty_world eq_refl eq_refl)
    as (He & Hg & _).
  exact (conj He Hg).
Defined.

Lemma malformed_yaml_is_an_error_witness :
  Extractor.extract (extractor None) broken =
    (Thrown ("Failed to extract frontmatter from /blog/post.md: "
             +:+ "Failed to parse frontmatter: YAMLParseError"), broken)
  /\ Updater.removeFields (updater false) ["tags"] broken =
    (Thrown ("Failed to remove fields from /blog/post.md: "
             +:+ "Failed to extract existing frontmatter: YAMLParseError"), broken).
Proof.
  pose proof (malformed_yaml_is_an_error (extractor None) (updater false)
                {[ "draft" := JBool false ]} ["tags"] broken
                with_broken_frontmatter "title: [" "YAMLParseError"
                eq_refl eq_refl eq_refl eq_refl)
    as (He & _ & _ & Hr & _).
  exact (conj He Hr).
Defined.

Lemma getCurrentFrontmatter_is_unfiltered_extract_witness :
  match (Extractor.extract (extractor None) doc).1,
        (Updater.getCurrentFrontmatter (updater false) doc).1 with
  | Returned a, Returned b => a = b
  | Thrown _, Thrown _ => True
  | _, _ => False
  end.
Proof.
  exact (getCurrentFrontmatter_is_unfiltered_extract (extractor None) (updater false)
           doc eq_refl eq_refl).
Defined.

Lemma updateFields_creates_like_updateFrontmatter_witness :
  Updater.updateFields (updater true) {[ "title" := JStr "New" ]} plain =
    Updater.updateFrontmatter (updater true) {[ "title" := JStr "New" ]} plain
  /\ Updater.updateFields (updater true) {[ "title" := JStr "New" ]} plain =
       (Returned tt,
        after_write plain path
          (toMarkdown
             (yaml (Updater.encode_frontmatter (JObj {[ "title" := JStr "New" ]}))
              :: fromMarkdown without_frontmatter))).
Proof.
  exact (updateFields_creates_like_updateFrontmatter (updater true)
           {[ "title" := JStr "New" ]} plain without_frontmatter
           eq_refl eq_refl eq_refl).
Defined.

Lemma processSingleFile_merges_tags_witness :
  exists merged i,
    (forall k, merged !! k =
               if bool_decide (k = "tags")
               then Some (JArr (JStr <$> ["a"; "b"; "c"]))
               else ({[ "title" := JStr "T" ]} : gmap string jsval) !! k)
    /\ fromMarkdown Fixture.with_frontmatter !! i = Some (yaml "title: T")
    /\ GenerativeTags.processSingleFile single path doc =
         (Returned tt,
          after_console
            (after_write (after_ai_request doc) path
               (Updater.with_frontmatter Fixture.with_frontmatter i merged))
            (log_generated path ["a"; "b"; "c"])).
Proof.
  refine (processSingleFile_merges_tags single path doc Fixture.with_frontmatter
            "title: T" {[ "title" := JStr "T" ]} ["a"; "b"; "c"; "d"; "e"]
            eq_refl eq_refl eq_refl eq_refl _).
  discriminate.
Defined.

Lemma processSingleFile_without_frontmatter_witness :
  GenerativeTags.processSingleFile single path plain =
    (Thrown Updater.NoFrontmatterError,
     after_console (after_ai_request plain)
       (error_failed_to_process path Updater.NoFrontmatterError)).
Proof.
  refine (processSingleFile_without_frontmatter single path plain without_frontmatter
            ["a"; "b"; "c"; "d"; "e"] eq_refl eq_refl eq_refl _).
  discriminate.
Defined.

Lemma run_on_one_file_touches_only_that_file_witness :
  match GenerativeTags.run single doc with
  | (Thrown _, w') => forall p, p <> path -> files w' !! p = files doc !! p
  | (Returned _, w') =>
      exists content,
        files w' = <[path := content]> (files doc)
        /\ written w' = written doc ++ [(path, content)]
  end.
Proof.
  exact (run_on_one_file_touches_only_that_file single doc eq_refl).
Defined.

Lemma matchesGlob_literal_pattern_witness :
  GenerativeTags.matchesGlob "post.md" "post.md" = Returned true
  /\ GenerativeTags.matchesGlob "postxmd" "post.md" = Returned false.
Proof.
  split.
  - exact (matchesGlob_literal_pattern fixture_host "post.md" "post.md" eq_refl).
  - exact (matchesGlob_literal_pattern fixture_host "postxmd" "post.md" eq_refl).
Defined.

Lemma option_value_stops_at_the_next_equals_witness :
  Cli.option_value "--fields=title,tags" = Some "title,tags"
  /\ Cli.option_value "--update=a=b" = Some "a".
Proof.
  split.
  - exact (proj1 (option_value_stops_at_the_next_equals "--fields" eq_refl)
             "title,tags" eq_refl).
  - exact (proj2 (option_value_stops_at_the_next_equals "--update" eq_refl)
             "a" "b" eq_refl).
Defined.

Lemma fields_option_reads_the_list_witness :
  Cli.fields_option ["post.md"; "--fields=title,tags"] = Some ["title"; "tags"]
  /\ Cli.fields_option ["post.md"; "--fields="] = None
  /\ Cli.fields_option ["post.md"] = None.
Proof.
  refine (fields_option_reads_the_list "post.md" ["title"; "tags"] [] eq_refl _ _).
  - discriminate.
  - repeat (apply List.Forall_cons;
            [unfold Cli.plain_name; repeat apply conj; (discriminate || reflexivity)|]).
    apply List.Forall_nil.
Defined.

Lemma strip_quotes_unquotes_witness :
  Cli.strip_quotes "'Hello'" = "Hello".
Proof.
  exact (strip_quotes_unquotes "Hello" "'"%char "'"%char eq_refl eq_refl).
Defined.

Lemma parse_set_reads_strings_witness :
  Cli.parse_set ["draft"; "title='Hello'"] !! "title" = Some (JStr "Hello").
Proof.
  refine (proj1 (proj2 (parse_set_reads_strings ["draft"; "title='Hello'"]))
            ["draft"] "title" "'Hello'" eq_refl _ _ eq_refl _ eq_refl);
    discriminate.
Defined.

Lemma extract_command_prints_the_projection_witness :
  exists filtered,
    (forall k, filtered !! k =
               if bool_decide (k ∈ ["title"; "tags"])
               then ({[ "title" := JStr "T" ]} : gmap string jsval) !! k
               else None)
    /\ Cli.main ["extract-frontmatter"; path; "--fields=title,tags"] doc =
         Cli.mkResult Cli.Finished
           [Cli.stdout_line (JSON_stringify (JObj filtered))] doc.
Proof.
  refine (extract_command_prints_the_projection path ["title"; "tags"] doc
            Fixture.with_frontmatter "title: T" {[ "title" := JStr "T" ]}
            _ eq_refl _ _ _ eq_refl eq_refl eq_refl).
  - discriminate.
  - discriminate.
  - repeat (apply List.Forall_cons;
            [unfold Cli.plain_name; repeat apply conj; (discriminate || reflexivity)|]).
    apply List.Forall_nil.
  - exact (bool_decide_unpack
             (Forall (fun n => n ∉ Object_prototype_keys) ["title"; "tags"]) I).
Defined.

Lemma extract_command_is_read_only_witness :
  Cli.cli ["extract-frontmatter"; path] plain =
    Cli.mkResult Cli.Finished [Cli.stdout_line "No frontmatter found"] plain.
Proof.
  refine (proj2 (extract_command_is_read_only [path] plain)
            path [] without_frontmatter eq_refl _ eq_refl eq_refl).
  discriminate.
Defined.

Lemma update_command_set_without_pairs_is_silent_witness :
  Cli.cli ["update-frontmatter"; path; "--set"; "title"] doc =
    Cli.mkResult Cli.Finished [] doc.
Proof.
  refine (update_command_set_without_pairs_is_silent path ["--set"; "title"]
            {| Cli.update := None; Cli.set := Some ["title"];
               Cli.remove := None; Cli.create := None |}
            ["title"] doc _ eq_refl eq_refl eq_refl _ _).
  - discriminate.
  - discriminate.
  - apply List.Forall_cons; [reflexivity | apply List.Forall_nil].
Defined.

Lemma argument_errors_end_with_exit_code_zero_witness :
  Cli.cli ["update-frontmatter"; path; "--bogus"] doc =
    Cli.mkResult Cli.Finished [Cli.stderr_error "Unknown option"] doc
  /\ Cli.exit_code (Cli.cli ["generate-tags"; path; "--bogus"] doc) = 0.
Proof.
  assert (Hfile : path <> "") by discriminate.
  pose proof (argument_errors_end_with_exit_code_zero path ["--bogus"]
                "Unknown option" doc Hfile) as (Hu & Hg & _).
  split.
  - exact (Hu eq_refl).
  - rewrite (Hg eq_refl). reflexivity.
Defined.

Lemma update_command_merges_witness :
  exists merged i,
    (forall k, merged !! k =
               match ({[ "draft" := JBool false ]} : gmap string jsval) !! k with
               | Some v => Some v
               | None => ({[ "title" := JStr "T" ]} : gmap string jsval) !! k
               end)
    /\ fromMarkdown Fixture.with_frontmatter !! i = Some (yaml "title: T")
    /\ Cli.cli ["update-frontmatter"; path; "--update=" +:+ draft_false] doc =
         Cli.mkResult Cli.Finished
           [Cli.stdout_line "Frontmatter updated successfully"]
           (after_write doc path
              (Updater.with_frontmatter Fixture.with_frontmatter i merged)).
Proof.
  refine (update_command_merges path draft_false ["--update=" +:+ draft_false]
            {| Cli.update := Some draft_false; Cli.set := None;
               Cli.remove := None; Cli.create := None |}
            {[ "draft" := JBool false ]} doc Fixture.with_frontmatter "title: T"
            {[ "title" := JStr "T" ]}
            _ eq_refl eq_refl _ eq_refl eq_refl eq_refl eq_refl).
  - discriminate.
  - discriminate.
Defined.

End MoreWitnesses.

(** * Content under the mdast serializer, at concrete documents *)

Section MdastWitnesses.
Import Fixture MdastFixture.





End MdastWitnesses.
